(** * GitLab MCP server: the request-dispatch layer of [src/gitlab/index.ts]

    The development embeds the two request handlers of the server
    (list-tools and call-tool) as functions in a small state-and-exception
    monad.  The GitLab adapters of [gitlab-api.js] and the zod schemas of
    [schemas.js] are imported by [index.ts]; they are taken as parameters
    of the embedding, and a concrete instance of both (schemas after the
    README's input tables, a scripted GitLab) is given at the end to run
    the handlers on concrete requests. *)

From Stdlib Require Import String Ascii List ZArith NArith Lia Bool.
From Stdlib Require Import DecimalString.
Import ListNotations.
Local Open Scope list_scope.
Local Open Scope string_scope.

Set Implicit Arguments.
Set Warnings "-register-all".

(** ** JavaScript values and strings *)

Module Js.

(** The line feed written [\n] in the source's string literals. *)
Definition nl : string := String (ascii_of_nat 10) EmptyString.
(** The quotation mark. *)
Definition dq : string := String (ascii_of_nat 34) EmptyString.
(** The backslash. *)
Definition bs : string := String (ascii_of_nat 92) EmptyString.

(** [Array.prototype.join] on an array of strings. *)
Fixpoint join (sep : string) (l : list string) : string :=
  match l with
  | [] => EmptyString
  | [x] => x
  | x :: rest => x ++ sep ++ join sep rest
  end.

(** JavaScript numbers that occur here are page numbers, identifiers and
    array indices: integers, printed in plain decimal. *)
Definition number := Z.

Definition number_toString (n : number) : string :=
  NilZero.string_of_int (Z.to_int n).

(** A JSON document, as [response.json()] produces it.  Objects keep the
    order of their keys, which [JSON.stringify] follows. *)
Inductive json : Type :=
| JNull
| JBool (b : bool)
| JNum (n : number)
| JStr (s : string)
| JArr (items : list json)
| JObj (fields : list (string * json)).

Definition JsObject := list (string * json).

Definition hex_digit (n : nat) : string :=
  String (ascii_of_nat (if Nat.ltb n 10 then 48 + n else 87 + n)) EmptyString.

(** How [JSON.stringify] writes one character of a string. *)
Definition escape_char (c : ascii) : string :=
  let n := nat_of_ascii c in
  if Nat.eqb n 34 then bs ++ dq
  else if Nat.eqb n 92 then bs ++ bs
  else if Nat.eqb n 8 then bs ++ "b"
  else if Nat.eqb n 9 then bs ++ "t"
  else if Nat.eqb n 10 then bs ++ "n"
  else if Nat.eqb n 12 then bs ++ "f"
  else if Nat.eqb n 13 then bs ++ "r"
  else if Nat.ltb n 32 then bs ++ "u00" ++ hex_digit (n / 16) ++ hex_digit (n mod 16)
  else String c EmptyString.

Fixpoint escape (s : string) : string :=
  match s with
  | EmptyString => EmptyString
  | String c rest => escape_char c ++ escape rest
  end.

Definition quote (s : string) : string := dq ++ escape s ++ dq.

(** [JSON.stringify(value, null, 2)], at the current indentation. *)
Fixpoint stringify_at (indent : string) (v : json) : string :=
  match v with
  | JNull => "null"
  | JBool true => "true"
  | JBool false => "false"
  | JNum n => number_toString n
  | JStr s => quote s
  | JArr [] => "[]"
  | JArr items =>
      let inner := indent ++ "  " in
      "[" ++ nl ++ inner
          ++ join ("," ++ nl ++ inner) (map (stringify_at inner) items)
          ++ nl ++ indent ++ "]"
  | JObj [] => "{}"
  | JObj fields =>
      let inner := indent ++ "  " in
      "{" ++ nl ++ inner
          ++ join ("," ++ nl ++ inner)
               (map (fun kv => quote (fst kv) ++ ": " ++ stringify_at inner (snd kv)) fields)
          ++ nl ++ indent ++ "}"
  end.

Definition JSON_stringify (v : json) : string := stringify_at EmptyString v.

(** What went wrong: a zod validation error with its issues, or a plain
    [Error] with its message. *)
Inductive PathSegment : Type :=
| Key (k : string)
| Index (i : N).

Record ZodIssue : Type := { path : list PathSegment; message : string }.

Inductive JsError : Type :=
| ZodError (errors : list ZodIssue)
| Error (message : string).

Definition segment_toString (p : PathSegment) : string :=
  match p with
  | Key k => k
  | Index i => NilZero.string_of_uint (N.to_uint i)
  end.

(** How a [try] block or an awaited call ends. *)
Inductive Completion (A : Type) : Type :=
| Normal (a : A)
| Throw (e : JsError).
Arguments Throw {A} e.

End Js.
Import Js.

(** ** The shapes that cross the handler

    One module per tool: [Args] is what the tool's schema yields, the
    other records are the option objects the handler hands to the GitLab
    adapters.  The types are declared in [schemas.js], which is not among
    the sources: the properties are those the handler reads, with the
    types the README's input tables give them. *)

Module ForkRepository.
Record Args : Type := { project_id : string; namespace : option string }.
End ForkRepository.

Module CreateBranch.
Record Args : Type := { project_id : string; branch : string; ref : option string }.
End CreateBranch.

(** The object literal [{ name: args.branch, ref }] handed to
    [createBranch]; by then [ref] is a string. *)
Module CreateBranchOptions.
Record t : Type := { name : string; ref : string }.
End CreateBranchOptions.

Module SearchRepositories.
Record Args : Type :=
  { search : string; page : option number; per_page : option number }.
End SearchRepositories.

Module CreateRepository.
Record Args : Type :=
  { name : string;
    description : option string;
    visibility : option string;
    initialize_with_readme : option bool }.
End CreateRepository.

Module GetFileContents.
Record Args : Type :=
  { project_id : string; file_path : string; ref : option string }.
End GetFileContents.

Module GetRepositoryTree.
Record Args : Type :=
  { project_id : string;
    path : option string;
    ref : option string;
    recursive : option bool;
    per_page : option number }.
End GetRepositoryTree.

Module CreateOrUpdateFile.
Record Args : Type :=
  { project_id : string;
    file_path : string;
    content : string;
    commit_message : string;
    branch : string;
    previous_path : option string }.
End CreateOrUpdateFile.

Module PushFiles.
Record File : Type := { file_path : string; content : string }.
Record Args : Type :=
  { project_id : string;
    branch : string;
    files : list File;
    commit_message : string }.
End PushFiles.

(** The object literal [{ path: f.file_path, content: f.content }] handed
    to [createCommit] for each file. *)
Module FileOperation.
Record t : Type := { path : string; content : string }.
End FileOperation.

Module CreateIssue.
Record Options : Type :=
  { title : string;
    description : option string;
    assignee_ids : option (list number);
    labels : option (list string);
    milestone_id : option number }.
(** The parsed object, already split the way the handler destructures it:
    [const { project_id, ...options } = args]. *)
Record Args : Type := { project_id : string; options : Options }.
End CreateIssue.

Module CreateMergeRequest.
Record Options : Type :=
  { title : string;
    description : option string;
    source_branch : string;
    target_branch : string;
    draft : option bool;
    allow_collaboration : option bool }.
(** Split as in [const { project_id, ...options } = args]. *)
Record Args : Type := { project_id : string; options : Options }.
End CreateMergeRequest.

(** Modelled from the spec: the type of a tree entry is declared in
    [schemas.js], which is not among the sources.  An entry has a [type]
    and a [path], which the handler reads; [id], [name] and [mode] are the
    other properties of GitLab's tree entries. *)
Module TreeItem.
Record t : Type :=
  { id : string; name : string; type : string; path : string; mode : string }.
Definition to_json (i : t) : json :=
  JObj [("id", JStr (id i)); ("name", JStr (name i)); ("type", JStr (type i));
        ("path", JStr (path i)); ("mode", JStr (mode i))].
End TreeItem.

(** A zod schema, as far as the server uses it: [schema.parse(value)],
    which yields the typed arguments or throws a [ZodError] with its
    issues, and [zodToJsonSchema(schema)]. *)
Record Schema (A : Type) : Type :=
  { parse : JsObject -> A + list ZodIssue;
    zodToJsonSchema : json }.

(** The ten exports of [schemas.js] that [index.ts] imports. *)
Record Schemas : Type :=
  { CreateOrUpdateFileSchema : Schema CreateOrUpdateFile.Args;
    SearchRepositoriesSchema : Schema SearchRepositories.Args;
    CreateRepositorySchema : Schema CreateRepository.Args;
    GetFileContentsSchema : Schema GetFileContents.Args;
    GetRepositoryTreeSchema : Schema GetRepositoryTree.Args;
    PushFilesSchema : Schema PushFiles.Args;
    CreateIssueSchema : Schema CreateIssue.Args;
    CreateMergeRequestSchema : Schema CreateMergeRequest.Args;
    ForkRepositorySchema : Schema ForkRepository.Args;
    CreateBranchSchema : Schema CreateBranch.Args }.

(** ** Calls to the GitLab adapters *)

(** Modelled from the spec: [gitlab-api.js] is not among the sources.
    One constructor per function [index.ts] imports from it, with the
    arguments the handler passes; by the spec an adapter constructs a URL,
    issues a single HTTP call and returns the parsed body, so that one
    invocation is one outgoing call to the GitLab API. *)
Inductive ApiCall : Type :=
| ForkProject (project_id : string) (namespace : option string)
| GetDefaultBranchRef (project_id : string)
| CreateBranch (project_id : string) (options : CreateBranchOptions.t)
| SearchProjects (search : string) (page per_page : option number)
| CreateRepository (options : CreateRepository.Args)
| GetFileContents (project_id file_path : string) (ref : option string)
| GetRepositoryTree (project_id : string) (path ref : option string)
    (recursive : option bool) (per_page : option number)
| CreateOrUpdateFile (project_id file_path content commit_message branch : string)
    (previous_path : option string)
| CreateCommit (project_id commit_message branch : string)
    (actions : list FileOperation.t)
| CreateIssue (project_id : string) (options : CreateIssue.Options)
| CreateMergeRequest (project_id : string) (options : CreateMergeRequest.Options).

(** What an adapter resolves to: the default branch's name, the tree's
    entries, and the parsed response body for all others. *)
Definition ApiReturn (c : ApiCall) : Type :=
  match c with
  | GetDefaultBranchRef _ => string
  | GetRepositoryTree _ _ _ _ _ => list TreeItem.t
  | _ => json
  end.

(** The value an adapter resolved to, as a JSON document. *)
Definition api_json (c : ApiCall) : ApiReturn c -> json :=
  match c return ApiReturn c -> json with
  | GetDefaultBranchRef _ => fun s => JStr s
  | GetRepositoryTree _ _ _ _ _ => fun tree => JArr (map TreeItem.to_json tree)
  | _ => fun j => j
  end.

(** One call that went out and how it came back. *)
Record Exchange : Type :=
  { call : ApiCall; reply : Completion (ApiReturn call) }.

(** ** The protocol's messages *)

Record CallToolParams : Type :=
  { name : string; arguments : option JsObject }.

Record CallToolRequest : Type := { params : CallToolParams }.

Record ContentItem : Type := { type : string; text : string }.

Record CallToolResult : Type := { content : list ContentItem }.

Module Tool.
Record t : Type :=
  { name : string; description : string; inputSchema : json }.
End Tool.

Module ListToolsResult.
Record t : Type := { tools : list Tool.t }.
End ListToolsResult.

(** ** The server

    [State] holds the one module-level variable of [index.ts] that a
    handler could read, the flag parsed from the command line, next to
    the state of the remote side, whatever GitLab keeps. *)

Section Server.

Variable schemas : Schemas.
Variable GitLab : Type.

(** The adapters of [gitlab-api.js]: on a call, GitLab moves to a new
    state and the adapter resolves to a value or rejects with an error. *)
Variable gitlab_api : forall c : ApiCall, GitLab -> Completion (ApiReturn c) * GitLab.

Record State : Type := { isReadOnly : bool; gitlab : GitLab }.

(** Running a handler from a state: how it completes, the state it leaves,
    and the calls it sent out, in order. *)
Record Run (A : Type) : Type :=
  { completion : Completion A; state : State; trace : list Exchange }.

Definition M (A : Type) : Type := State -> Run A.

Definition ret {A : Type} (a : A) : M A :=
  fun st => {| completion := Normal a; state := st; trace := [] |}.

Definition throw {A : Type} (e : JsError) : M A :=
  fun st => {| completion := Throw e; state := st; trace := [] |}.

Definition bind {A B : Type} (m : M A) (k : A -> M B) : M B :=
  fun st =>
    let r := m st in
    match completion r with
    | Normal a =>
        let r' := k a (state r) in
        {| completion := completion r'; state := state r';
           trace := (trace r ++ trace r')%list |}
    | Throw e => {| completion := Throw e; state := state r; trace := trace r |}
    end.

(** [try { body } catch (error) { handler }] *)
Definition try_catch {A : Type} (body : M A) (handler : JsError -> M A) : M A :=
  fun st =>
    let r := body st in
    match completion r with
    | Normal a => r
    | Throw e =>
        let r' := handler e (state r) in
        {| completion := completion r'; state := state r';
           trace := (trace r ++ trace r')%list |}
    end.

(** [await adapter(...)]: the call goes out, GitLab answers. *)
Definition invoke (c : ApiCall) : M (ApiReturn c) :=
  fun st =>
    let (r, g) := gitlab_api c (gitlab st) in
    {| completion := r;
       state := {| isReadOnly := isReadOnly st; gitlab := g |};
       trace := [ {| call := c; reply := r |} ] |}.

(** [Schema.parse(value)] *)
Definition zparse {A : Type} (s : Schema A) (value : JsObject) : M A :=
  match parse s value with
  | inl args => ret args
  | inr errors => throw (ZodError errors)
  end.

Local Notation "x <- m ;; k" := (bind m (fun x => k))
  (at level 61, m at next level, right associativity).

(** *** The imports from [gitlab-api.js] *)

Definition forkProject (project_id : string) (namespace : option string) : M json :=
  invoke (ForkProject project_id namespace).

Definition getDefaultBranchRef (project_id : string) : M string :=
  invoke (GetDefaultBranchRef project_id).

Definition createBranch (project_id : string) (options : CreateBranchOptions.t) : M json :=
  invoke (CreateBranch project_id options).

Definition searchProjects (search : string) (page per_page : option number) : M json :=
  invoke (SearchProjects search page per_page).

Definition createRepository (options : CreateRepository.Args) : M json :=
  invoke (CreateRepository options).

Definition getFileContents (project_id file_path : string) (ref : option string) : M json :=
  invoke (GetFileContents project_id file_path ref).

Definition getRepositoryTree (project_id : string) (path ref : option string)
    (recursive : option bool) (per_page : option number) : M (list TreeItem.t) :=
  invoke (GetRepositoryTree project_id path ref recursive per_page).

Definition createOrUpdateFile (project_id file_path content commit_message branch : string)
    (previous_path : option string) : M json :=
  invoke (CreateOrUpdateFile project_id file_path content commit_message branch previous_path).

Definition createCommit (project_id commit_message branch : string)
    (actions : list FileOperation.t) : M json :=
  invoke (CreateCommit project_id commit_message branch actions).

Definition createIssue (project_id : string) (options : CreateIssue.Options) : M json :=
  invoke (CreateIssue project_id options).

Definition createMergeRequest (project_id : string)
    (options : CreateMergeRequest.Options) : M json :=
  invoke (CreateMergeRequest project_id options).

(** *** The list-tools handler *)

Definition readonlyTools : list string :=
  ["search_repositories"; "get_repository_tree"; "get_file_contents"].

Definition tools : list Tool.t :=
  [ {| Tool.name := "create_or_update_file";
       Tool.description := "Create or update a single file in a GitLab project";
       Tool.inputSchema := zodToJsonSchema (CreateOrUpdateFileSchema schemas) |};
    {| Tool.name := "search_repositories";
       Tool.description := "Search for GitLab projects";
       Tool.inputSchema := zodToJsonSchema (SearchRepositoriesSchema schemas) |};
    {| Tool.name := "create_repository";
       Tool.description := "Create a new GitLab project";
       Tool.inputSchema := zodToJsonSchema (CreateRepositorySchema schemas) |};
    {| Tool.name := "get_file_contents";
       Tool.description := "Get the contents of a file or directory from a GitLab project";
       Tool.inputSchema := zodToJsonSchema (GetFileContentsSchema schemas) |};
    {| Tool.name := "get_repository_tree";
       Tool.description := "Get the directory tree of a GitLab project";
       Tool.inputSchema := zodToJsonSchema (GetRepositoryTreeSchema schemas) |};
    {| Tool.name := "push_files";
       Tool.description := "Push multiple files to a GitLab project in a single commit";
       Tool.inputSchema := zodToJsonSchema (PushFilesSchema schemas) |};
    {| Tool.name := "create_issue";
       Tool.description := "Create a new issue in a GitLab project";
       Tool.inputSchema := zodToJsonSchema (CreateIssueSchema schemas) |};
    {| Tool.name := "create_merge_request";
       Tool.description := "Create a new merge request in a GitLab project";
       Tool.inputSchema := zodToJsonSchema (CreateMergeRequestSchema schemas) |};
    {| Tool.name := "fork_repository";
       Tool.description := "Fork a GitLab project to your account or specified namespace";
       Tool.inputSchema := zodToJsonSchema (ForkRepositorySchema schemas) |};
    {| Tool.name := "create_branch";
       Tool.description := "Create a new branch in a GitLab project";
       Tool.inputSchema := zodToJsonSchema (CreateBranchSchema schemas) |} ].

(** [array.includes(x)] on strings. *)
Definition includes (l : list string) (x : string) : bool :=
  existsb (fun y => y =? x) l.

Definition ListTools : M ListToolsResult.t :=
  fun st =>
    ret {| ListToolsResult.tools :=
             if isReadOnly st
             then filter (fun t => includes readonlyTools (Tool.name t)) tools
             else tools |} st.

(** *** The call-tool handler *)

Definition text_result (t : string) : CallToolResult :=
  {| content := [ {| type := "text"; text := t |} ] |}.

(** The text built in the [get_repository_tree] case. *)
Definition formattedTree (tree : list TreeItem.t) : string :=
  let formattedTree := "Repository directory structure:" ++ nl ++ nl in
  let directories := filter (fun item => TreeItem.type item =? "tree") tree in
  let files := filter (fun item => TreeItem.type item =? "blob") tree in
  let formattedTree :=
    fold_left (fun acc dir => acc ++ "Folder: " ++ TreeItem.path dir ++ "/" ++ nl)
      directories formattedTree in
  let formattedTree :=
    fold_left (fun acc file => acc ++ "File: " ++ TreeItem.path file ++ nl)
      files formattedTree in
  formattedTree.

(** The body of the [try] block. *)
Definition CallTool_try (request : CallToolRequest) : M CallToolResult :=
  match arguments (params request) with
  | None => throw (Error "Arguments are required")
  | Some arguments =>
    let name := name (params request) in
    if name =? "fork_repository" then
      args <- zparse (ForkRepositorySchema schemas) arguments ;;
      fork <- forkProject (ForkRepository.project_id args) (ForkRepository.namespace args) ;;
      ret (text_result (JSON_stringify fork))
    else if name =? "create_branch" then
      args <- zparse (CreateBranchSchema schemas) arguments ;;
      ref <- match CreateBranch.ref args with
             | Some (String _ _ as ref) => ret ref
             | Some EmptyString | None =>
                 (* [!ref] holds: [undefined] and the empty string *)
                 getDefaultBranchRef (CreateBranch.project_id args)
             end ;;
      branch <- createBranch (CreateBranch.project_id args)
                  {| CreateBranchOptions.name := CreateBranch.branch args;
                     CreateBranchOptions.ref := ref |} ;;
      ret (text_result (JSON_stringify branch))
    else if name =? "search_repositories" then
      args <- zparse (SearchRepositoriesSchema schemas) arguments ;;
      results <- searchProjects (SearchRepositories.search args)
                   (SearchRepositories.page args) (SearchRepositories.per_page args) ;;
      ret (text_result (JSON_stringify results))
    else if name =? "create_repository" then
      args <- zparse (CreateRepositorySchema schemas) arguments ;;
      repository <- createRepository args ;;
      ret (text_result (JSON_stringify repository))
    else if name =? "get_file_contents" then
      args <- zparse (GetFileContentsSchema schemas) arguments ;;
      contents <- getFileContents (GetFileContents.project_id args)
                    (GetFileContents.file_path args) (GetFileContents.ref args) ;;
      ret (text_result (JSON_stringify contents))
    else if name =? "get_repository_tree" then
      args <- zparse (GetRepositoryTreeSchema schemas) arguments ;;
      tree <- getRepositoryTree (GetRepositoryTree.project_id args)
                (GetRepositoryTree.path args) (GetRepositoryTree.ref args)
                (GetRepositoryTree.recursive args) (GetRepositoryTree.per_page args) ;;
      ret (text_result (formattedTree tree))
    else if name =? "create_or_update_file" then
      args <- zparse (CreateOrUpdateFileSchema schemas) arguments ;;
      result <- createOrUpdateFile (CreateOrUpdateFile.project_id args)
                  (CreateOrUpdateFile.file_path args) (CreateOrUpdateFile.content args)
                  (CreateOrUpdateFile.commit_message args) (CreateOrUpdateFile.branch args)
                  (CreateOrUpdateFile.previous_path args) ;;
      ret (text_result (JSON_stringify result))
    else if name =? "push_files" then
      args <- zparse (PushFilesSchema schemas) arguments ;;
      result <- createCommit (PushFiles.project_id args) (PushFiles.commit_message args)
                  (PushFiles.branch args)
                  (map (fun f => {| FileOperation.path := PushFiles.file_path f;
                                    FileOperation.content := PushFiles.content f |})
                     (PushFiles.files args)) ;;
      ret (text_result (JSON_stringify result))
    else if name =? "create_issue" then
      args <- zparse (CreateIssueSchema schemas) arguments ;;
      issue <- createIssue (CreateIssue.project_id args) (CreateIssue.options args) ;;
      ret (text_result (JSON_stringify issue))
    else if name =? "create_merge_request" then
      args <- zparse (CreateMergeRequestSchema schemas) arguments ;;
      mergeRequest <- createMergeRequest (CreateMergeRequest.project_id args)
                        (CreateMergeRequest.options args) ;;
      ret (text_result (JSON_stringify mergeRequest))
    else
      throw (Error ("Unknown tool: " ++ name))
  end.

(** The message built from a [ZodError]'s issues. *)
Definition issue_line (e : ZodIssue) : string :=
  join "." (map segment_toString (path e)) ++ ": " ++ message e.

(** The [catch (error)] block. *)
Definition CallTool_catch (error : JsError) : M CallToolResult :=
  match error with
  | ZodError errors =>
      throw (Error ("Invalid arguments: " ++ join ", " (map issue_line errors)))
  | _ => throw error
  end.

Definition CallTool (request : CallToolRequest) : M CallToolResult :=
  try_catch (CallTool_try request) CallTool_catch.

(** *** The request loop

    The server answers list-tools and call-tool requests one after the
    other; a handler that throws is answered with an error and the server
    goes on. *)

Inductive Request : Type :=
| ListToolsRequest
| CallToolRequest_ (request : CallToolRequest).

Inductive Response : Type :=
| ListToolsResponse (result : ListToolsResult.t)
| CallToolResponse (result : CallToolResult).

Definition serve (rq : Request) : M Response :=
  match rq with
  | ListToolsRequest => result <- ListTools ;; ret (ListToolsResponse result)
  | CallToolRequest_ request => result <- CallTool request ;; ret (CallToolResponse result)
  end.

(** The state the server is in after a history of requests. *)
Fixpoint serve_all (history : list Request) (st : State) : State :=
  match history with
  | [] => st
  | rq :: rest => serve_all rest (state (serve rq st))
  end.

(** *** Notions the statements use *)

(** The adapter calls of a run, in order. *)
Definition calls {A : Type} (r : Run A) : list ApiCall := map call (trace r).

(** What the schema of the named tool says about an argument object. *)
Inductive Validation : Type :=
| Accepted
| Rejected (errors : list ZodIssue)
| UnknownTool.

Definition verdict {A : Type} (r : A + list ZodIssue) : Validation :=
  match r with
  | inl _ => Accepted
  | inr errors => Rejected errors
  end.

Definition validate (name : string) (arguments : JsObject) : Validation :=
  if name =? "fork_repository" then verdict (parse (ForkRepositorySchema schemas) arguments)
  else if name =? "create_branch" then verdict (parse (CreateBranchSchema schemas) arguments)
  else if name =? "search_repositories" then verdict (parse (SearchRepositoriesSchema schemas) arguments)
  else if name =? "create_repository" then verdict (parse (CreateRepositorySchema schemas) arguments)
  else if name =? "get_file_contents" then verdict (parse (GetFileContentsSchema schemas) arguments)
  else if name =? "get_repository_tree" then verdict (parse (GetRepositoryTreeSchema schemas) arguments)
  else if name =? "create_or_update_file" then verdict (parse (CreateOrUpdateFileSchema schemas) arguments)
  else if name =? "push_files" then verdict (parse (PushFilesSchema schemas) arguments)
  else if name =? "create_issue" then verdict (parse (CreateIssueSchema schemas) arguments)
  else if name =? "create_merge_request" then verdict (parse (CreateMergeRequestSchema schemas) arguments)
  else UnknownTool.

(** Whether a request is a [create_branch] whose [ref] is left out or
    empty, so that the handler looks the default branch up. *)
Definition defaults_ref (name : string) (arguments : JsObject) : bool :=
  (name =? "create_branch")
  && match parse (CreateBranchSchema schemas) arguments with
     | inl args =>
         match CreateBranch.ref args with
         | Some (String _ _) => false
         | Some EmptyString | None => true
         end
     | inr _ => false
     end.

(** The same state with another value of the flag. *)
Definition with_flag (b : bool) (st : State) : State :=
  {| isReadOnly := b; gitlab := gitlab st |}.

(** A step that leaves the flag as it found it. *)
Definition keeps_flag {A : Type} (m : M A) : Prop :=
  forall st, isReadOnly (state (m st)) = isReadOnly st.

Definition in_state {A : Type} (f : State -> State) (r : Run A) : Run A :=
  {| completion := completion r; state := f (state r); trace := trace r |}.

(** A step that does not look at the flag: started with another value of
    it, the step does the same and leaves that value. *)
Definition blind {A : Type} (m : M A) : Prop :=
  forall b st, m (with_flag b st) = in_state (with_flag b) (m st).

End Server.

Arguments ret {GitLab A} a.
Arguments throw {GitLab A} e.
Arguments bind {GitLab A B} m k.
Arguments try_catch {GitLab A} body handler.
Arguments zparse {GitLab A} s value.
Arguments keeps_flag {GitLab A} m.
Arguments blind {GitLab A} m.
Arguments in_state {GitLab A} f r.
Arguments with_flag {GitLab} b st.

(** The fixed set of ten tool names. *)
Definition tool_names : list string :=
  ["create_or_update_file"; "search_repositories"; "create_repository";
   "get_file_contents"; "get_repository_tree"; "push_files"; "create_issue";
   "create_merge_request"; "fork_repository"; "create_branch"].

(** The listing the tree case is meant to produce, said in words: after
    the heading, one [Folder:] line per entry of type [tree], then one
    [File:] line per entry of type [blob], each group in the order of the
    API's answer. *)
Definition lines (l : list string) : string := fold_right append EmptyString l.

Definition is_type (t : string) (item : TreeItem.t) : bool := TreeItem.type item =? t.

Definition tree_listing (tree : list TreeItem.t) : string :=
  "Repository directory structure:" ++ nl ++ nl
    ++ lines (map (fun d => "Folder: " ++ TreeItem.path d ++ "/" ++ nl)
                (filter (is_type "tree") tree))
    ++ lines (map (fun f => "File: " ++ TreeItem.path f ++ nl)
                (filter (is_type "blob") tree)).

(** ** A concrete instance: the README's schemas *)

Module Readme.

(** The result of checking one property or one object: the value, or the
    issues found. *)
Definition Checked (A : Type) : Type := (A + list ZodIssue)%type.

(** Checks of the properties of one object run side by side, and the
    issues of all of them are collected. *)
Definition ap {A B : Type} (f : Checked (A -> B)) (x : Checked A) : Checked B :=
  match f, x with
  | inl f, inl x => inl (f x)
  | inl _, inr e => inr e
  | inr e, inl _ => inr e
  | inr e1, inr e2 => inr (e1 ++ e2)%list
  end.

Local Notation "f <*> x" := (ap f x) (at level 50, left associativity).

Fixpoint lookup (key : string) (o : JsObject) : option json :=
  match o with
  | [] => None
  | (k, v) :: rest => if k =? key then Some v else lookup key rest
  end.

(** The type name zod reports for a value it did not expect. *)
Definition received (v : json) : string :=
  match v with
  | JNull => "null"
  | JBool _ => "boolean"
  | JNum _ => "number"
  | JStr _ => "string"
  | JArr _ => "array"
  | JObj _ => "object"
  end.

Definition issue (at_ : list PathSegment) (msg : string) : list ZodIssue :=
  [ {| path := at_; message := msg |} ].

Definition expected {A : Type} (at_ : list PathSegment) (what : string) (v : json) : Checked A :=
  inr (issue at_ ("Expected " ++ what ++ ", received " ++ received v)).

Definition z_string (at_ : list PathSegment) (v : json) : Checked string :=
  match v with JStr s => inl s | _ => expected at_ "string" v end.

Definition z_number (at_ : list PathSegment) (v : json) : Checked number :=
  match v with JNum n => inl n | _ => expected at_ "number" v end.

Definition z_boolean (at_ : list PathSegment) (v : json) : Checked bool :=
  match v with JBool b => inl b | _ => expected at_ "boolean" v end.

Definition z_visibility (at_ : list PathSegment) (v : json) : Checked string :=
  match v with
  | JStr s =>
      if (s =? "private") || (s =? "internal") || (s =? "public") then inl s
      else inr (issue at_ ("Invalid enum value. Expected 'private' | 'internal' | 'public', received '"
                             ++ s ++ "'"))
  | _ => expected at_ "'private' | 'internal' | 'public'" v
  end.

Fixpoint z_items {A : Type} (item : list PathSegment -> json -> Checked A)
    (at_ : list PathSegment) (i : N) (l : list json) : Checked (list A) :=
  match l with
  | [] => inl []
  | v :: rest => inl cons <*> item (at_ ++ [Index i])%list v <*> z_items item at_ (N.succ i) rest
  end.

Definition z_array {A : Type} (item : list PathSegment -> json -> Checked A)
    (at_ : list PathSegment) (v : json) : Checked (list A) :=
  match v with JArr l => z_items item at_ 0%N l | _ => expected at_ "array" v end.

(** A property that must be present. *)
Definition required {A : Type} (check : list PathSegment -> json -> Checked A)
    (at_ : list PathSegment) (key : string) (o : JsObject) : Checked A :=
  match lookup key o with
  | Some v => check (at_ ++ [Key key])%list v
  | None => inr (issue (at_ ++ [Key key])%list "Required")
  end.

(** A property that may be left out. *)
Definition optional {A : Type} (check : list PathSegment -> json -> Checked A)
    (at_ : list PathSegment) (key : string) (o : JsObject) : Checked (option A) :=
  match lookup key o with
  | Some v => inl Some <*> check (at_ ++ [Key key])%list v
  | None => inl None
  end.

Definition z_file (at_ : list PathSegment) (v : json) : Checked PushFiles.File :=
  match v with
  | JObj o =>
      inl PushFiles.Build_File
        <*> required z_string at_ "file_path" o
        <*> required z_string at_ "content" o
  | _ => expected at_ "object" v
  end.

(** The JSON schema of an object with the given properties, each with its
    JSON type and whether it is required. *)
Definition object_schema (props : list (string * string * bool)) : json :=
  JObj [ ("type", JStr "object");
         ("properties",
           JObj (map (fun p => (fst (fst p), JObj [("type", JStr (snd (fst p)))])) props));
         ("required",
           JArr (map (fun p => JStr (fst (fst p))) (filter (fun p => snd p) props)));
         ("additionalProperties", JBool false) ].

(** Modelled from the spec: [schemas.js] is not among the sources.  The
    ten schemas follow the input tables of the README (property names,
    types and which are optional), with [project_id] and [per_page] for
    the tree as the handler reads them, and zod's way of reporting: one
    issue per offending property, with its path. *)
Definition schemas : Schemas :=
  {| CreateOrUpdateFileSchema :=
       {| parse o :=
            inl CreateOrUpdateFile.Build_Args
              <*> required z_string [] "project_id" o
              <*> required z_string [] "file_path" o
              <*> required z_string [] "content" o
              <*> required z_string [] "commit_message" o
              <*> required z_string [] "branch" o
              <*> optional z_string [] "previous_path" o;
          zodToJsonSchema :=
            object_schema
              [("project_id", "string", true); ("file_path", "string", true);
               ("content", "string", true); ("commit_message", "string", true);
               ("branch", "string", true); ("previous_path", "string", false)] |};
     SearchRepositoriesSchema :=
       {| parse o :=
            inl SearchRepositories.Build_Args
              <*> required z_string [] "search" o
              <*> optional z_number [] "page" o
              <*> optional z_number [] "per_page" o;
          zodToJsonSchema :=
            object_schema
              [("search", "string", true); ("page", "number", false);
               ("per_page", "number", false)] |};
     CreateRepositorySchema :=
       {| parse o :=
            inl CreateRepository.Build_Args
              <*> required z_string [] "name" o
              <*> optional z_string [] "description" o
              <*> optional z_visibility [] "visibility" o
              <*> optional z_boolean [] "initialize_with_readme" o;
          zodToJsonSchema :=
            object_schema
              [("name", "string", true); ("description", "string", false);
               ("visibility", "string", false);
               ("initialize_with_readme", "boolean", false)] |};
     GetFileContentsSchema :=
       {| parse o :=
            inl GetFileContents.Build_Args
              <*> required z_string [] "project_id" o
              <*> required z_string [] "file_path" o
              <*> optional z_string [] "ref" o;
          zodToJsonSchema :=
            object_schema
              [("project_id", "string", true); ("file_path", "string", true);
               ("ref", "string", false)] |};
     GetRepositoryTreeSchema :=
       {| parse o :=
            inl GetRepositoryTree.Build_Args
              <*> required z_string [] "project_id" o
              <*> optional z_string [] "path" o
              <*> optional z_string [] "ref" o
              <*> optional z_boolean [] "recursive" o
              <*> optional z_number [] "per_page" o;
          zodToJsonSchema :=
            object_schema
              [("project_id", "string", true); ("path", "string", false);
               ("ref", "string", false); ("recursive", "boolean", false);
               ("per_page", "number", false)] |};
     PushFilesSchema :=
       {| parse o :=
            inl PushFiles.Build_Args
              <*> required z_string [] "project_id" o
              <*> required z_string [] "branch" o
              <*> required (z_array z_file) [] "files" o
              <*> required z_string [] "commit_message" o;
          zodToJsonSchema :=
            object_schema
              [("project_id", "string", true); ("branch", "string", true);
               ("files", "array", true); ("commit_message", "string", true)] |};
     CreateIssueSchema :=
       {| parse o :=
            inl CreateIssue.Build_Args
              <*> required z_string [] "project_id" o
              <*> (inl CreateIssue.Build_Options
                     <*> required z_string [] "title" o
                     <*> optional z_string [] "description" o
                     <*> optional (z_array z_number) [] "assignee_ids" o
                     <*> optional (z_array z_string) [] "labels" o
                     <*> optional z_number [] "milestone_id" o);
          zodToJsonSchema :=
            object_schema
              [("project_id", "string", true); ("title", "string", true);
               ("description", "string", false); ("assignee_ids", "array", false);
               ("labels", "array", false); ("milestone_id", "number", false)] |};
     CreateMergeRequestSchema :=
       {| parse o :=
            inl CreateMergeRequest.Build_Args
              <*> required z_string [] "project_id" o
              <*> (inl CreateMergeRequest.Build_Options
                     <*> required z_string [] "title" o
                     <*> optional z_string [] "description" o
                     <*> required z_string [] "source_branch" o
                     <*> required z_string [] "target_branch" o
                     <*> optional z_boolean [] "draft" o
                     <*> optional z_boolean [] "allow_collaboration" o);
          zodToJsonSchema :=
            object_schema
              [("project_id", "string", true); ("title", "string", true);
               ("description", "string", false); ("source_branch", "string", true);
               ("target_branch", "string", true); ("draft", "boolean", false);
               ("allow_collaboration", "boolean", false)] |};
     ForkRepositorySchema :=
       {| parse o :=
            inl ForkRepository.Build_Args
              <*> required z_string [] "project_id" o
              <*> optional z_string [] "namespace" o;
          zodToJsonSchema :=
            object_schema
              [("project_id", "string", true); ("namespace", "string", false)] |};
     CreateBranchSchema :=
       {| parse o :=
            inl CreateBranch.Build_Args
              <*> required z_string [] "project_id" o
              <*> required z_string [] "branch" o
              <*> optional z_string [] "ref" o;
          zodToJsonSchema :=
            object_schema
              [("project_id", "string", true); ("branch", "string", true);
               ("ref", "string", false)] |} |}.

End Readme.

(** ** A concrete instance: a mocked GitLab

    One project with some branches and a tree.  Any call on the project
    [missing] is rejected; creating a branch that exists is rejected;
    everything else succeeds and echoes what it was asked. *)

Module Mock.

Record GitLab : Type :=
  { default_branch : string;
    branches : list string;
    tree : list TreeItem.t }.

Definition not_found {A : Type} : Completion A :=
  Throw (Error "GitLab API error: Not Found").

Definition on_project {A : Type} (project_id : string) (g : GitLab)
    (k : Completion A * GitLab) : Completion A * GitLab :=
  if project_id =? "missing" then (not_found, g) else k.

(** Modelled from the spec: [gitlab-api.js] is not among the sources.
    Each adapter stands for a single HTTP call that returns the parsed
    body or fails with an [Error]; what the mocked GitLab answers is the
    mock's own. *)
Definition api (c : ApiCall) (g : GitLab) : Completion (ApiReturn c) * GitLab :=
  match c as c0 return Completion (ApiReturn c0) * GitLab with
  | ForkProject project_id namespace =>
      on_project project_id g
        (Normal (JObj [("forked_from", JStr project_id)]), g)
  | GetDefaultBranchRef project_id =>
      on_project project_id g (Normal (default_branch g), g)
  | CreateBranch project_id options =>
      on_project project_id g
        (if existsb (fun b => b =? CreateBranchOptions.name options) (branches g)
         then (Throw (Error "GitLab API error: Bad Request"), g)
         else (Normal (JObj [("name", JStr (CreateBranchOptions.name options));
                             ("from", JStr (CreateBranchOptions.ref options))]),
               {| default_branch := default_branch g;
                  branches := (branches g ++ [CreateBranchOptions.name options])%list;
                  tree := tree g |}))
  | SearchProjects search page per_page =>
      (Normal (JObj [("count", JNum 0%Z); ("items", JArr [])]), g)
  | CreateRepository options =>
      (Normal (JObj [("name", JStr (CreateRepository.name options))]), g)
  | GetFileContents project_id file_path ref =>
      on_project project_id g (Normal (JObj [("file_path", JStr file_path)]), g)
  | GetRepositoryTree project_id path ref recursive per_page =>
      on_project project_id g (Normal (tree g), g)
  | CreateOrUpdateFile project_id file_path content commit_message branch previous_path =>
      on_project project_id g
        (Normal (JObj [("file_path", JStr file_path); ("branch", JStr branch)]), g)
  | CreateCommit project_id commit_message branch actions =>
      on_project project_id g
        (Normal (JObj [("message", JStr commit_message);
                       ("files", JNum (Z.of_nat (length actions)))]), g)
  | CreateIssue project_id options =>
      on_project project_id g
        (Normal (JObj [("title", JStr (CreateIssue.title options))]), g)
  | CreateMergeRequest project_id options =>
      on_project project_id g
        (Normal (JObj [("title", JStr (CreateMergeRequest.title options))]), g)
  end.

Definition entry (type path : string) : TreeItem.t :=
  {| TreeItem.id := "0"; TreeItem.name := path; TreeItem.type := type;
     TreeItem.path := path; TreeItem.mode := "100644" |}.

Definition gitlab0 : GitLab :=
  {| default_branch := "main";
     branches := ["main"];
     tree := [entry "blob" "README.md"; entry "tree" "src"; entry "commit" "vendor/lib";
              entry "blob" "package.json"; entry "tree" "docs"] |}.

Definition start (readonly : bool) : State GitLab :=
  {| isReadOnly := readonly; gitlab := gitlab0 |}.

Definition request (tool : string) (arguments : option JsObject) : CallToolRequest :=
  {| params := {| name := tool; arguments := arguments |} |}.

(** Handling one call-tool request on the mock, with the README's schemas. *)
Definition handle (readonly : bool) (tool : string) (arguments : option JsObject)
    : Run GitLab CallToolResult :=
  CallTool Readme.schemas api (request tool arguments) (start readonly).

End Mock.


(** [gitlab-api.js] is not among the sources; this GitLab stands for an
    adapter that checks the response it gets against a schema of its own:
    the fork answer does not have the expected shape and the adapter
    rejects with the [ZodError] of that check.  Everything else is the
    mock's. *)
Module Malformed.

Definition issues : list ZodIssue :=
  [ {| path := [Key "forked_from_project"; Key "id"]; message := "Required" |} ].

Definition api (c : ApiCall) (g : Mock.GitLab) : Completion (ApiReturn c) * Mock.GitLab :=
  match c as c0 return Completion (ApiReturn c0) * Mock.GitLab with
  | ForkProject project_id namespace => (Throw (ZodError issues), g)
  | c0 => Mock.api c0 g
  end.

End Malformed.

(** ** The configuration module, [src/gitlab/config.ts] *)

Module Config.

(** [process.env]: a variable holds a string or is not set. *)
Definition Env : Type := string -> option string.

(** How loading the module ends: the process exits with a code, after
    what it wrote to stderr, or the module exports its two constants. *)
Inductive Loaded : Type :=
| Exit (code : Z) (stderr : list string)
| Exports (GITLAB_PERSONAL_ACCESS_TOKEN GITLAB_API_URL : string).

(** [value || fallback] on a [string | undefined]. *)
Definition or_ (value : option string) (fallback : string) : string :=
  match value with
  | Some (String c s) => String c s
  | Some EmptyString | None => fallback
  end.

Definition load (env : Env) : Loaded :=
  let GITLAB_PERSONAL_ACCESS_TOKEN := env "GITLAB_PERSONAL_ACCESS_TOKEN" in
  let GITLAB_API_URL := or_ (env "GITLAB_API_URL") "https://gitlab.com/api/v4" in
  match GITLAB_PERSONAL_ACCESS_TOKEN with
  | Some (String c s) => Exports (String c s) GITLAB_API_URL
  | Some EmptyString | None =>
      (* [!GITLAB_PERSONAL_ACCESS_TOKEN] *)
      Exit 1 ["GITLAB_PERSONAL_ACCESS_TOKEN environment variable is not set"]
  end.

(** An environment given as a list of assignments, the first one of a
    variable counting. *)
Fixpoint env_of (vars : list (string * string)) : Env :=
  fun key =>
    match vars with
    | [] => None
    | (k, v) :: rest => if k =? key then Some v else env_of rest key
    end.

End Config.

(** ** Further notions for the statements *)

(** A call that GitLab answered, as opposed to one it rejected. *)
Definition answered (x : Exchange) : bool :=
  match reply x with
  | Normal _ => true
  | Throw _ => false
  end.

(** The three adapters that only fetch: [searchProjects],
    [getFileContents] and [getRepositoryTree]. *)
Definition fetches (c : ApiCall) : bool :=
  match c with
  | SearchProjects _ _ _ | GetFileContents _ _ _ | GetRepositoryTree _ _ _ _ _ => true
  | _ => false
  end.

(** The error the [catch] block makes of a [ZodError]. *)
Definition invalid_arguments (errors : list ZodIssue) : JsError :=
  Error ("Invalid arguments: " ++ join ", " (map issue_line errors)).

(** The catalog lists the tool with the JSON form of schema [S]. *)
Definition advertised {A : Type} (schemas : Schemas) (tool : string) (S : Schema A) : Prop :=
  exists description,
    In {| Tool.name := tool; Tool.description := description;
          Tool.inputSchema := zodToJsonSchema S |}
       (tools schemas).

(** The call-tool handler checks the arguments of the tool against
    schema [S]: what [S] rejects fails with its issues before any call,
    what [S] accepts gets as far as a call. *)
Definition enforced {A : Type} (schemas : Schemas) (GitLab : Type)
    (gitlab_api : forall c : ApiCall, GitLab -> Completion (ApiReturn c) * GitLab)
    (tool : string) (S : Schema A) : Prop :=
  forall (a : JsObject) (st : State GitLab),
    match parse S a with
    | inr errors =>
        CallTool schemas gitlab_api {| params := {| name := tool; arguments := Some a |} |} st
        = {| completion := Throw (invalid_arguments errors); state := st; trace := [] |}
    | inl _ =>
        trace (CallTool schemas gitlab_api
                 {| params := {| name := tool; arguments := Some a |} |} st) <> []
    end.

(** The lines of the listing, by group. *)
Definition folder_lines (tree : list TreeItem.t) : string :=
  lines (map (fun d => "Folder: " ++ TreeItem.path d ++ "/" ++ nl)
           (filter (is_type "tree") tree)).

Definition file_lines (tree : list TreeItem.t) : string :=
  lines (map (fun f => "File: " ++ TreeItem.path f ++ nl)
           (filter (is_type "blob") tree)).

(** ** Properties of the handlers *)

Section Properties.

Variable schemas : Schemas.
Variable GitLab : Type.
Variable gitlab_api : forall c : ApiCall, GitLab -> Completion (ApiReturn c) * GitLab.

Local Abbreviation M := (M GitLab).
Local Abbreviation State := (State GitLab).
Local Abbreviation Run := (Run GitLab).
Local Abbreviation send := (invoke gitlab_api).
Local Abbreviation handle := (CallTool schemas gitlab_api).
Local Abbreviation handle_try := (CallTool_try schemas gitlab_api).
Local Abbreviation list_tools := (@ListTools schemas GitLab).
Local Abbreviation accepts := (validate schemas).

(** *** The flag is framed out of every step *)

Lemma ret_keeps_flag {A : Type} (a : A) : keeps_flag (@ret GitLab A a).
Proof. intro st; reflexivity. Qed.

Lemma throw_keeps_flag {A : Type} (e : JsError) : keeps_flag (@throw GitLab A e).
Proof. intro st; reflexivity. Qed.

Lemma invoke_keeps_flag (c : ApiCall) : keeps_flag (send c).
Proof. intro st; unfold invoke; destruct (gitlab_api c (gitlab st)); reflexivity. Qed.

Lemma bind_keeps_flag {A B : Type} (m : M A) (k : A -> M B) :
  keeps_flag m -> (forall a, keeps_flag (k a)) -> keeps_flag (bind m k).
Proof.
  intros Hm Hk st; unfold bind.
  destruct (completion (m st)) eqn:E; simpl.
  - rewrite Hk; apply Hm.
  - apply Hm.
Qed.

Lemma try_catch_keeps_flag {A : Type} (body : M A) (handler : JsError -> M A) :
  keeps_flag body -> (forall e, keeps_flag (handler e)) -> keeps_flag (try_catch body handler).
Proof.
  intros Hb Hh st; unfold try_catch.
  destruct (completion (body st)) eqn:E; simpl.
  - apply Hb.
  - rewrite Hh; apply Hb.
Qed.

Lemma zparse_keeps_flag {A : Type} (s : Schema A) (value : JsObject) :
  keeps_flag (@zparse GitLab A s value).
Proof. intro st; unfold zparse; destruct (parse s value); reflexivity. Qed.

(** *** No step looks at the flag *)

Lemma ret_blind {A : Type} (a : A) : blind (@ret GitLab A a).
Proof. intros b st; reflexivity. Qed.

Lemma throw_blind {A : Type} (e : JsError) : blind (@throw GitLab A e).
Proof. intros b st; reflexivity. Qed.

Lemma invoke_blind (c : ApiCall) : blind (send c).
Proof.
  intros b st; unfold invoke; simpl.
  destruct (gitlab_api c (gitlab st)); reflexivity.
Qed.

Lemma bind_blind {A B : Type} (m : M A) (k : A -> M B) :
  blind m -> (forall a, blind (k a)) -> blind (bind m k).
Proof.
  intros Hm Hk b st; unfold bind; cbv zeta; rewrite !Hm.
  unfold in_state; cbn [completion state trace].
  destruct (completion (m st)); [rewrite Hk|]; reflexivity.
Qed.

Lemma try_catch_blind {A : Type} (body : M A) (handler : JsError -> M A) :
  blind body -> (forall e, blind (handler e)) -> blind (try_catch body handler).
Proof.
  intros Hb Hh b st; unfold try_catch; cbv zeta; rewrite !Hb.
  unfold in_state; cbn [completion state trace].
  destruct (completion (body st)) eqn:E; [rewrite E|rewrite Hh]; reflexivity.
Qed.

Lemma zparse_blind {A : Type} (s : Schema A) (value : JsObject) : blind (@zparse GitLab A s value).
Proof. intros b st; unfold zparse; destruct (parse s value); reflexivity. Qed.

(** Both properties go through a handler by its structure. *)
Ltac structural :=
  repeat first
    [ apply bind_keeps_flag | apply try_catch_keeps_flag | apply ret_keeps_flag
    | apply throw_keeps_flag | apply zparse_keeps_flag
    | apply bind_blind | apply try_catch_blind | apply ret_blind
    | apply throw_blind | apply zparse_blind
    | match goal with
      | |- keeps_flag (invoke _ ?c) => exact (invoke_keeps_flag c)
      | |- blind (invoke _ ?c) => exact (invoke_blind c)
      | |- forall _, _ => intro
      | |- context [if ?c then _ else _] => destruct c
      | |- context [match ?x with _ => _ end] => destruct x
      end ].

Lemma CallTool_keeps_flag (request : CallToolRequest) : keeps_flag (handle request).
Proof.
  unfold CallTool, CallTool_try, CallTool_catch,
    forkProject, getDefaultBranchRef, createBranch, searchProjects, createRepository,
    getFileContents, getRepositoryTree, createOrUpdateFile, createCommit, createIssue,
    createMergeRequest.
  destruct request as [[n [a|]]]; simpl; structural.
Qed.

Lemma CallTool_blind (request : CallToolRequest) : blind (handle request).
Proof.
  unfold CallTool, CallTool_try, CallTool_catch,
    forkProject, getDefaultBranchRef, createBranch, searchProjects, createRepository,
    getFileContents, getRepositoryTree, createOrUpdateFile, createCommit, createIssue,
    createMergeRequest.
  destruct request as [[n [a|]]]; simpl; structural.
Qed.

Lemma ListTools_keeps_flag : keeps_flag list_tools.
Proof. intro st; reflexivity. Qed.

Lemma serve_keeps_flag (rq : Request) : keeps_flag (serve schemas gitlab_api rq).
Proof.
  destruct rq; simpl; apply bind_keeps_flag;
    auto using ListTools_keeps_flag, CallTool_keeps_flag, ret_keeps_flag.
Qed.

Lemma serve_all_keeps_flag (history : list Request) (st : State) :
  isReadOnly (serve_all schemas gitlab_api history st) = isReadOnly st.
Proof.
  revert st; induction history as [|rq rest IH]; intro st; simpl.
  - reflexivity.
  - rewrite IH. apply serve_keeps_flag.
Qed.

Lemma state_ext (s1 s2 : State) :
  isReadOnly s1 = isReadOnly s2 -> gitlab s1 = gitlab s2 -> s1 = s2.
Proof. destruct s1, s2; simpl; intros; subst; reflexivity. Qed.

(** C10. No handler writes a server-side variable: after any history of
    requests the readonly flag, the only variable the server holds, is
    what it was at startup.  So the server answers a request after any
    history as a server just started would, connected to GitLab as the
    history left it: nothing of the earlier calls is kept on the server's
    side, and two histories that leave GitLab in the same state are
    followed by the same answer, the same calls and the same final
    state. *)
Theorem server_state_is_never_mutated
    (history history' : list Request) (rq : Request) (st : State) :
  isReadOnly (state (serve schemas gitlab_api rq st)) = isReadOnly st
  /\ isReadOnly (serve_all schemas gitlab_api history st) = isReadOnly st
  /\ serve schemas gitlab_api rq (serve_all schemas gitlab_api history st)
     = serve schemas gitlab_api rq
         {| isReadOnly := isReadOnly st;
            gitlab := gitlab (serve_all schemas gitlab_api history st) |}
  /\ (gitlab (serve_all schemas gitlab_api history st)
        = gitlab (serve_all schemas gitlab_api history' st) ->
      serve schemas gitlab_api rq (serve_all schemas gitlab_api history st)
        = serve schemas gitlab_api rq (serve_all schemas gitlab_api history' st)).
Proof.
  split; [apply serve_keeps_flag|].
  split; [apply serve_all_keeps_flag|].
  split.
  - f_equal. apply state_ext; cbn [isReadOnly gitlab];
      [apply serve_all_keeps_flag | reflexivity].
  - intro Hg. f_equal. apply state_ext; [|exact Hg].
    now rewrite !serve_all_keeps_flag.
Qed.

(** *** Going through the handler case by case *)

Ltac open_steps :=
  unfold CallTool_catch, verdict, calls, bind, zparse, ret, throw,
    forkProject, getDefaultBranchRef, createBranch, searchProjects, createRepository,
    getFileContents, getRepositoryTree, createOrUpdateFile, createCommit, createIssue,
    createMergeRequest, invoke.

(** The [switch]: one goal per [case], and one for [default]. *)
Ltac by_name n :=
  unfold CallTool, CallTool_try, validate; cbn [params name arguments];
  repeat (let s := match goal with |- context [n =? ?s] => s end in
          destruct (String.eqb_spec n s) as [->|?]);
  cbn [String.eqb Ascii.eqb Bool.eqb].

(** One step of a run: the schema's verdict, the test on [ref], or the
    answer of GitLab to the next call. *)
Ltac step :=
  match goal with
  | |- context [parse ?s ?a] => destruct (parse s a)
  | |- context [CreateBranch.ref ?args] => destruct (CreateBranch.ref args) as [[|? ?]|]
  | |- context [gitlab_api ?c (gitlab ?s)] =>
      is_var s; destruct (gitlab_api c (gitlab s)) as [[?|?] ?]
  | |- context [gitlab_api ?c ?g] =>
      is_var g; destruct (gitlab_api c g) as [[?|?] ?]
  | |- context [match ?e with ZodError _ => _ | Error _ => _ end] =>
      is_var e; destruct e
  end;
  cbn [completion state trace app isReadOnly gitlab].

Lemma bind_zparse {A B : Type} (s : Schema A) (v : JsObject) (k : A -> M B) (st : State) :
  bind (zparse s v) k st
  = match parse s v with
    | inl args => k args st
    | inr errors => {| completion := Throw (ZodError errors); state := st; trace := [] |}
    end.
Proof.
  unfold bind, zparse. destruct (parse s v) as [args|errors]; cbn;
    [destruct (k args st)|]; reflexivity.
Qed.

(** What is left of a case when only the schema's verdict matters. *)
Ltac on_verdict a :=
  unfold try_catch; cbv zeta; rewrite !bind_zparse;
  destruct (parse _ a) as [?|?]; cbn [verdict completion state trace].

(** C7. Validation comes first: when the arguments do not satisfy the
    schema of the named tool, handling the request sends no call to
    GitLab and leaves the state as it was. *)
Theorem rejected_arguments_reach_no_api
    (request : CallToolRequest) (a : JsObject) (errors : list ZodIssue) (st : State) :
  arguments (params request) = Some a ->
  accepts (name (params request)) a = Rejected errors ->
  trace (handle request st) = [] /\ state (handle request st) = st.
Proof.
  destruct request as [[n args]]; cbn [params name arguments].
  intros ->. revert errors. by_name n; [on_verdict a .. | ]; intros errors H;
    first [discriminate H | split; reflexivity].
Qed.

(** C5. When the arguments fail the schema of the named tool, the call
    fails with an [Error] whose message is [Invalid arguments: ] followed
    by one [path: message] entry per validation issue, the path's segments
    joined by dots and the entries by commas. *)
Theorem invalid_arguments_name_each_field
    (request : CallToolRequest) (a : JsObject) (errors : list ZodIssue) (st : State) :
  arguments (params request) = Some a ->
  accepts (name (params request)) a = Rejected errors ->
  completion (handle request st)
  = Throw (Error ("Invalid arguments: "
                    ++ join ", "
                         (map (fun e => join "." (map segment_toString (path e))
                                          ++ ": " ++ message e)
                            errors))).
Proof.
  destruct request as [[n args]]; cbn [params name arguments].
  intros ->. revert errors. by_name n; [on_verdict a .. | ]; intros errors H;
    first [discriminate H | injection H as <-; reflexivity].
Qed.

(** C9. A request without arguments fails with [Arguments are required]
    before its tool name is looked at, so whatever that name is; a request
    that gets past this check and names a tool outside the ten fails with
    [Unknown tool: <name>].  Neither sends a call nor changes the
    state. *)
Theorem missing_arguments_and_unknown_tools (request : CallToolRequest) (st : State) :
  (arguments (params request) = None ->
   handle request st
   = {| completion := Throw (Error "Arguments are required"); state := st; trace := [] |})
  /\ (forall a,
        arguments (params request) = Some a ->
        ~ In (name (params request)) tool_names ->
        handle request st
        = {| completion := Throw (Error ("Unknown tool: " ++ name (params request)));
             state := st; trace := [] |}).
Proof.
  destruct request as [[n args]]; cbn [params name arguments]. split.
  - intros ->. reflexivity.
  - intros a -> Hout. by_name n;
      try (exfalso; apply Hout; unfold tool_names; simpl; tauto).
    reflexivity.
Qed.

(** *** The tree listing *)

Lemma append_assoc (s1 s2 s3 : string) : (s1 ++ s2) ++ s3 = s1 ++ (s2 ++ s3).
Proof. induction s1 as [|c s1 IH]; simpl; [reflexivity | now rewrite IH]. Qed.

Lemma forEach_append {A : Type} (line : A -> string) (l : list A) (acc : string) :
  fold_left (fun acc x => acc ++ line x) l acc = acc ++ lines (map line l).
Proof.
  revert acc; induction l as [|x l IH]; intro acc; simpl.
  - induction acc as [|c acc IHacc]; simpl; [reflexivity | now rewrite <- IHacc].
  - rewrite IH. apply append_assoc.
Qed.

Lemma formattedTree_listing (tree : list TreeItem.t) :
  formattedTree tree = tree_listing tree.
Proof.
  unfold formattedTree, tree_listing, is_type.
  rewrite (forEach_append (fun f => "File: " ++ TreeItem.path f ++ nl)).
  rewrite (forEach_append (fun d => "Folder: " ++ TreeItem.path d ++ "/" ++ nl)).
  now rewrite !append_assoc.
Qed.

(** C8. A [get_repository_tree] call that goes through answers with one
    text item whose text is the listing: after the heading, the entries
    of type [tree] first, each as [Folder: <path>/], then the entries of
    type [blob], each as [File: <path>], both groups in the order of the
    API's answer; entries of any other type do not appear. *)
Theorem tree_listing_folders_then_files
    (request : CallToolRequest) (a : JsObject) (args : GetRepositoryTree.Args)
    (tree : list TreeItem.t) (g : GitLab) (st : State) :
  name (params request) = "get_repository_tree" ->
  arguments (params request) = Some a ->
  parse (GetRepositoryTreeSchema schemas) a = inl args ->
  gitlab_api
    (GetRepositoryTree (GetRepositoryTree.project_id args) (GetRepositoryTree.path args)
       (GetRepositoryTree.ref args) (GetRepositoryTree.recursive args)
       (GetRepositoryTree.per_page args))
    (gitlab st) = (Normal tree, g) ->
  completion (handle request st)
  = Normal
      {| content :=
           [ {| type := "text";
                text :=
                  "Repository directory structure:" ++ nl ++ nl
                    ++ lines (map (fun d => "Folder: " ++ TreeItem.path d ++ "/" ++ nl)
                                (filter (fun item => TreeItem.type item =? "tree") tree))
                    ++ lines (map (fun f => "File: " ++ TreeItem.path f ++ nl)
                                (filter (fun item => TreeItem.type item =? "blob") tree))
             |} ] |}.
Proof.
  destruct request as [[n args']]; cbn [params name arguments].
  intros -> -> Hparse Hapi.
  unfold CallTool, CallTool_try, try_catch;
    cbn [params name arguments String.eqb Ascii.eqb Bool.eqb].
  open_steps. rewrite Hparse. cbn [completion state trace app]. rewrite Hapi.
  cbn [completion state trace app].
  now rewrite formattedTree_listing.
Qed.

(** C4 (as amended). In a [create_branch] call, a [ref] that is given and
    not empty is used as it is, and the only call that goes out is the
    branch creation from it; when [ref] is left out, or is the empty
    string, the default branch of the project is looked up first and, if
    that succeeds, the branch is created from it. *)
Theorem create_branch_source_ref
    (request : CallToolRequest) (a : JsObject) (args : CreateBranch.Args) (st : State) :
  name (params request) = "create_branch" ->
  arguments (params request) = Some a ->
  parse (CreateBranchSchema schemas) a = inl args ->
  match CreateBranch.ref args with
  | Some (String c s) =>
      calls (handle request st)
      = [ CreateBranch (CreateBranch.project_id args)
            {| CreateBranchOptions.name := CreateBranch.branch args;
               CreateBranchOptions.ref := String c s |} ]
  | Some EmptyString | None =>
      exists (answer : Completion string) (rest : list Exchange),
        trace (handle request st)
        = {| call := GetDefaultBranchRef (CreateBranch.project_id args);
             reply := answer |} :: rest
        /\ match answer with
           | Normal default_branch =>
               map call rest
               = [ CreateBranch (CreateBranch.project_id args)
                     {| CreateBranchOptions.name := CreateBranch.branch args;
                        CreateBranchOptions.ref := default_branch |} ]
           | Throw _ => rest = []
           end
  end.
Proof.
  destruct request as [[n args']]; cbn [params name arguments].
  intros -> -> Hparse.
  unfold CallTool, CallTool_try, try_catch;
    cbn [params name arguments String.eqb Ascii.eqb Bool.eqb].
  open_steps. rewrite Hparse. cbn [completion state trace app].
  destruct (CreateBranch.ref args) as [[|c s]|]; cbn [completion state trace app];
    repeat step; cbn [map call];
    try reflexivity;
    (eexists _, _; split; [reflexivity | cbn [map call]; reflexivity]).
Qed.

(** C3 (as amended). A request whose arguments its tool's schema accepts
    is answered once, with a single text item, and sends exactly one call
    to GitLab; except a [create_branch] without a (non-empty) [ref], which
    sends the default-branch lookup first and, if that succeeds, exactly
    one more call. *)
Theorem one_api_call_per_request (request : CallToolRequest) (a : JsObject) (st : State) :
  arguments (params request) = Some a ->
  accepts (name (params request)) a = Accepted ->
  (forall result,
     completion (handle request st) = Normal result -> length (content result) = 1)
  /\ if defaults_ref schemas (name (params request)) a
     then exists project_id (answer : Completion string) (rest : list Exchange),
            trace (handle request st)
            = {| call := GetDefaultBranchRef project_id; reply := answer |} :: rest
            /\ match answer with
               | Normal _ => length rest = 1
               | Throw _ => rest = []
               end
     else length (trace (handle request st)) = 1.
Proof.
  destruct request as [[n args]]; cbn [params name arguments].
  intros ->. unfold defaults_ref. by_name n; try discriminate;
    on_verdict a; (intros Hok; try discriminate Hok); open_steps;
    cbn [andb]; repeat step;
    (split; [intros result Hres; first [discriminate Hres | injection Hres as <-; reflexivity] |]);
    try reflexivity;
    (eexists _, _, _; split; reflexivity).
Qed.

(** C1 (as amended). For every tool but [get_repository_tree] and every
    argument object its schema accepts, the answer to the caller is the
    value the tool's (last) GitLab call resolved to, written out by
    [JSON.stringify(value, null, 2)] and nothing else; the call fails
    exactly when that GitLab call is rejected. *)
Theorem api_result_is_forwarded_unchanged
    (request : CallToolRequest) (a : JsObject) (st : State) :
  arguments (params request) = Some a ->
  accepts (name (params request)) a = Accepted ->
  name (params request) <> "get_repository_tree" ->
  exists (before : list Exchange) (c : ApiCall) (answer : Completion (ApiReturn c)),
    trace (handle request st) = (before ++ [ {| call := c; reply := answer |} ])%list
    /\ match answer with
       | Normal result =>
           completion (handle request st)
           = Normal {| content := [ {| type := "text";
                                       text := JSON_stringify (api_json c result) |} ] |}
       | Throw _ => exists e, completion (handle request st) = Throw e
       end.
Proof.
  destruct request as [[n args]]; cbn [params name arguments].
  intros ->. by_name n; try discriminate; try (intros _ Hne; now elim Hne);
    on_verdict a; (intros Hok _; try discriminate Hok); open_steps;
    repeat step;
    first [ exists []; eexists _, _; split; [reflexivity|]
          | eexists [_], _, _; split; [reflexivity|] ];
    cbn [api_json]; first [reflexivity | eexists; reflexivity].
Qed.

(** *** Failures *)

Lemma run_eta {A : Type} (r : Run A) :
  {| completion := completion r; state := state r; trace := (trace r ++ [])%list |} = r.
Proof. destruct r; simpl; now rewrite app_nil_r. Qed.

Lemma rethrown (request : CallToolRequest) (st : State) (e : JsError) :
  completion (handle_try request st) = Throw e ->
  (forall errors, e <> ZodError errors) ->
  handle request st = handle_try request st.
Proof.
  intros Hthrow Hother. unfold CallTool, try_catch. rewrite Hthrow.
  destruct e as [errors|msg]; [now elim (Hother errors)|].
  unfold CallTool_catch, throw; cbn [completion state trace].
  rewrite <- Hthrow. apply run_eta.
Qed.

(** C6. A failure that is not a [ZodError] leaves the handler as it was
    thrown: whatever the [try] block threw, and in particular whatever a
    GitLab call was rejected with, is what the caller gets, and the
    [catch] block sends nothing.  No call follows a call that was
    rejected, so nothing is tried again. *)
Theorem other_failures_are_rethrown (request : CallToolRequest) (st : State) :
  (forall e,
     completion (handle_try request st) = Throw e ->
     (forall errors, e <> ZodError errors) ->
     completion (handle request st) = Throw e
     /\ trace (handle request st) = trace (handle_try request st))
  /\ (forall before x after e,
        trace (handle request st) = (before ++ x :: after)%list ->
        reply x = Throw e ->
        after = []
        /\ ((forall errors, e <> ZodError errors) ->
            completion (handle request st) = Throw e)).
Proof.
  split.
  - intros e Hthrow Hother. rewrite (rethrown request st Hthrow Hother).
    split; [exact Hthrow | reflexivity].
  - destruct request as [[n [a|]]]; cbn [params name arguments].
    2: { intros [|? ?] x after thrown H; discriminate H. }
    by_name n; try on_verdict a; unfold try_catch; open_steps; repeat step;
      intros [|x1 [|x2 [|x3 before]]] x after thrown Htrace; try discriminate Htrace;
      inversion Htrace; subst; cbn [reply];
      intros Hreply; try discriminate Hreply;
      try (destruct after; discriminate);
      injection Hreply as <-;
      (split; [reflexivity|]);
      intros Hother; first [ reflexivity | exfalso; eapply Hother; reflexivity ].
Qed.

(** C2. The readonly flag shows in the list-tools answer only: with it
    the catalog is cut down to [search_repositories], [get_file_contents]
    and [get_repository_tree], without it all ten tools are listed; a
    call-tool request is handled the same under either value of the flag
    (same completion, same calls, same effect on GitLab), so that a
    [create_or_update_file] with valid arguments sends its call to GitLab
    under [--readonly] too. *)
Theorem readonly_only_restricts_catalog
    (request : CallToolRequest) (st : State) (b : bool) :
  (exists catalog,
      list_tools (with_flag true st)
      = {| completion := Normal {| ListToolsResult.tools := catalog |};
           state := with_flag true st; trace := [] |}
      /\ map Tool.name catalog
         = ["search_repositories"; "get_file_contents"; "get_repository_tree"])
  /\ (exists catalog,
      list_tools (with_flag false st)
      = {| completion := Normal {| ListToolsResult.tools := catalog |};
           state := with_flag false st; trace := [] |}
      /\ map Tool.name catalog = tool_names)
  /\ (completion (handle request (with_flag b st)) = completion (handle request st)
      /\ trace (handle request (with_flag b st)) = trace (handle request st)
      /\ gitlab (state (handle request (with_flag b st))) = gitlab (state (handle request st)))
  /\ (forall a args,
        name (params request) = "create_or_update_file" ->
        arguments (params request) = Some a ->
        parse (CreateOrUpdateFileSchema schemas) a = inl args ->
        calls (handle request (with_flag true st))
        = [ CreateOrUpdateFile (CreateOrUpdateFile.project_id args)
              (CreateOrUpdateFile.file_path args) (CreateOrUpdateFile.content args)
              (CreateOrUpdateFile.commit_message args) (CreateOrUpdateFile.branch args)
              (CreateOrUpdateFile.previous_path args) ]).
Proof.
  split; [eexists; split; reflexivity|].
  split; [eexists; split; reflexivity|].
  split.
  - rewrite (CallTool_blind request b st). repeat split; reflexivity.
  - rewrite (CallTool_blind request true st). unfold calls, in_state; cbn [trace].
    destruct request as [[n args']]; cbn [params name arguments].
    intros a args -> -> Hparse.
    unfold CallTool, CallTool_try, try_catch;
      cbn [params name arguments String.eqb Ascii.eqb Bool.eqb].
    open_steps. rewrite Hparse. cbn [completion state trace app].
    repeat step; reflexivity.
Qed.

(** ** Further properties of the handlers *)

(** X1. The caller never gets a raw [ZodError]: the call-tool handler
    returns a result or throws a plain [Error] with a message, whatever
    the request, the schemas and the adapters do. *)
Theorem caller_never_sees_ZodError (request : CallToolRequest) (st : State) :
  (exists result, completion (handle request st) = Normal result)
  \/ (exists message, completion (handle request st) = Throw (Error message)).
Proof.
  unfold CallTool, try_catch.
  destruct (completion (handle_try request st)) as [result|[errors|message]] eqn:E.
  - left. exists result. exact E.
  - right. eexists. reflexivity.
  - right. exists message. reflexivity.
Qed.

(** X2. The handler answers normally exactly when the request has
    arguments, its tool's schema accepts them, and GitLab answered every
    call that went out; and then at least one call did go out.  So no
    rejected call is ever swallowed, and nothing but a rejected call makes
    a valid request fail. *)
Theorem success_iff_every_call_answered (request : CallToolRequest) (st : State) :
  ((exists result, completion (handle request st) = Normal result)
   <-> (match arguments (params request) with
        | Some a => accepts (name (params request)) a = Accepted
        | None => False
        end
        /\ forallb answered (trace (handle request st)) = true))
  /\ (forall result,
        completion (handle request st) = Normal result -> trace (handle request st) <> []).
Proof.
  destruct request as [[n [a|]]]; cbn [params name arguments].
  2: { split; [split|]; [intros [r H]; discriminate H | intros [[] _]
                         | intros r H; discriminate H]. }
  by_name n; try on_verdict a; unfold try_catch; open_steps; repeat step;
    (split; [split|]);
    try (intros [r H]; discriminate H);
    try (intros [H _]; discriminate H);
    try (intros [_ H]; discriminate H);
    try (intros r H; discriminate H);
    try (intros _; split; reflexivity);
    try (intros _; eexists; reflexivity);
    try (intros r _; discriminate).
Qed.

(** X3. A [ZodError] raised by an adapter is handled like one raised by
    the argument check: when GitLab's answer to a call is rejected with a
    [ZodError], the caller gets [Invalid arguments: ...] built from that
    error's issues, although the arguments had passed their schema. *)
Theorem adapter_ZodError_reads_as_invalid_arguments
    (request : CallToolRequest) (st : State)
    (before after : list Exchange) (x : Exchange) (errors : list ZodIssue) :
  trace (handle request st) = (before ++ x :: after)%list ->
  reply x = Throw (ZodError errors) ->
  completion (handle request st) = Throw (invalid_arguments errors)
  /\ match arguments (params request) with
     | Some a => accepts (name (params request)) a = Accepted
     | None => False
     end.
Proof.
  destruct request as [[n [a|]]]; cbn [params name arguments].
  2: { destruct before; intros H; discriminate H. }
  revert before x after errors.
  by_name n; try on_verdict a; unfold try_catch; open_steps; repeat step;
    intros [|x1 [|x2 [|x3 before]]] x after thrown Htrace; try discriminate Htrace;
    inversion Htrace; subst; cbn [reply];
    intros Hreply; try discriminate Hreply;
    injection Hreply as <-;
    (split; reflexivity).
Qed.

(** X4. The three tools that stay in the catalog under [--readonly] only
    ever fetch: whatever the arguments, a call-tool request for one of
    them sends no call but [searchProjects], [getFileContents] or
    [getRepositoryTree], and at most one. *)
Theorem readonly_tools_only_fetch (request : CallToolRequest) (st : State) :
  In (name (params request)) readonlyTools ->
  forallb fetches (calls (handle request st)) = true
  /\ length (calls (handle request st)) <= 1.
Proof.
  destruct request as [[n [a|]]]; cbn [params name arguments].
  2: { intros _. split; [reflexivity | cbn; lia]. }
  unfold readonlyTools. intros [<-|[<-|[<-|[]]]];
    unfold CallTool, CallTool_try, try_catch;
    cbn [params name arguments String.eqb Ascii.eqb Bool.eqb];
    cbv zeta; rewrite !bind_zparse; destruct (parse _ a);
    open_steps; cbn [completion state trace map];
    repeat step; cbn; split; first [reflexivity | lia].
Qed.

(** X5. The switch of the call-tool handler and the catalog of the
    list-tools handler know the same tools: a request with arguments is
    turned down as [Unknown tool: <name>] exactly when the full catalog
    has no tool of that name. *)
Theorem unknown_iff_not_in_catalog
    (request : CallToolRequest) (a : JsObject) (st : State) :
  arguments (params request) = Some a ->
  (completion (handle request st)
   = Throw (Error ("Unknown tool: " ++ name (params request)))
   /\ trace (handle request st) = [])
  <-> ~ In (name (params request)) (map Tool.name (tools schemas)).
Proof.
  destruct request as [[n args]]; cbn [params name arguments].
  intros ->. cbn [map tools Tool.name].
  by_name n;
    [ on_verdict a; open_steps; repeat step;
      (split;
       [ intros [Hc Ht]; cbn in Hc; first [discriminate Hc | discriminate Ht]
       | intros Hout; exfalso; apply Hout; simpl; tauto ]) .. | ].
  split.
  - intros _ H. simpl in H. intuition congruence.
  - intros _. split; reflexivity.
Qed.

Ltac enforces :=
  intros a st; unfold CallTool, CallTool_try, try_catch, invalid_arguments;
  cbn [params name arguments String.eqb Ascii.eqb Bool.eqb];
  cbv zeta; rewrite !bind_zparse; destruct (parse _ a);
  [ open_steps; repeat step; discriminate | reflexivity ].

Ltac advertises := eexists; simpl; tauto.

(** X6. Each tool is checked against the schema it is advertised with:
    for every one of the ten names, the catalog entry carries the JSON
    form of the very schema whose [parse] the call-tool handler runs on
    the arguments of that name. *)
Theorem advertised_schema_is_enforced :
  (advertised schemas "create_or_update_file" (CreateOrUpdateFileSchema schemas)
   /\ enforced schemas gitlab_api "create_or_update_file" (CreateOrUpdateFileSchema schemas))
  /\ (advertised schemas "search_repositories" (SearchRepositoriesSchema schemas)
      /\ enforced schemas gitlab_api "search_repositories" (SearchRepositoriesSchema schemas))
  /\ (advertised schemas "create_repository" (CreateRepositorySchema schemas)
      /\ enforced schemas gitlab_api "create_repository" (CreateRepositorySchema schemas))
  /\ (advertised schemas "get_file_contents" (GetFileContentsSchema schemas)
      /\ enforced schemas gitlab_api "get_file_contents" (GetFileContentsSchema schemas))
  /\ (advertised schemas "get_repository_tree" (GetRepositoryTreeSchema schemas)
      /\ enforced schemas gitlab_api "get_repository_tree" (GetRepositoryTreeSchema schemas))
  /\ (advertised schemas "push_files" (PushFilesSchema schemas)
      /\ enforced schemas gitlab_api "push_files" (PushFilesSchema schemas))
  /\ (advertised schemas "create_issue" (CreateIssueSchema schemas)
      /\ enforced schemas gitlab_api "create_issue" (CreateIssueSchema schemas))
  /\ (advertised schemas "create_merge_request" (CreateMergeRequestSchema schemas)
      /\ enforced schemas gitlab_api "create_merge_request" (CreateMergeRequestSchema schemas))
  /\ (advertised schemas "fork_repository" (ForkRepositorySchema schemas)
      /\ enforced schemas gitlab_api "fork_repository" (ForkRepositorySchema schemas))
  /\ (advertised schemas "create_branch" (CreateBranchSchema schemas)
      /\ enforced schemas gitlab_api "create_branch" (CreateBranchSchema schemas)).
Proof.
  repeat split; first [advertises | enforces].
Qed.

(** X7. [push_files] hands the files over as they came: when the
    arguments parse and whatever GitLab answers, the one call that goes
    out is [createCommit] with the project, the commit message and the
    branch of the arguments, and one action per file, in the same order,
    with that file's path and content. *)
Theorem push_files_commits_every_file
    (request : CallToolRequest) (a : JsObject) (args : PushFiles.Args) (st : State) :
  name (params request) = "push_files" ->
  arguments (params request) = Some a ->
  parse (PushFilesSchema schemas) a = inl args ->
  exists actions,
    calls (handle request st)
    = [ CreateCommit (PushFiles.project_id args) (PushFiles.commit_message args)
          (PushFiles.branch args) actions ]
    /\ map FileOperation.path actions = map PushFiles.file_path (PushFiles.files args)
    /\ map FileOperation.content actions = map PushFiles.content (PushFiles.files args)
    /\ length actions = length (PushFiles.files args).
Proof.
  destruct request as [[n args']]; cbn [params name arguments].
  intros -> -> Hparse.
  unfold CallTool, CallTool_try, try_catch;
    cbn [params name arguments String.eqb Ascii.eqb Bool.eqb].
  cbv zeta. rewrite !bind_zparse, Hparse. open_steps.
  eexists. split; [repeat step; reflexivity|].
  rewrite !map_map, length_map. cbn [FileOperation.path FileOperation.content].
  repeat split; reflexivity.
Qed.

(** *** The tree listing, further *)

Lemma lines_app (l1 l2 : list string) : lines (l1 ++ l2) = lines l1 ++ lines l2.
Proof.
  induction l1 as [|x l1 IH]; simpl; [reflexivity|].
  now rewrite IH, append_assoc.
Qed.

Lemma append_empty (s : string) : s ++ EmptyString = s.
Proof. induction s as [|c s IH]; simpl; [reflexivity | now rewrite IH]. Qed.

Lemma filter_none {A : Type} (p : A -> bool) (l : list A) :
  (forall x, In x l -> p x = false) -> filter p l = [].
Proof.
  induction l as [|x l IH]; simpl; intros H; [reflexivity|].
  rewrite (H x (or_introl eq_refl)). apply IH. intros y Hy. apply H. now right.
Qed.

Lemma formattedTree_groups (tree : list TreeItem.t) :
  formattedTree tree
  = "Repository directory structure:" ++ nl ++ nl ++ folder_lines tree ++ file_lines tree.
Proof. rewrite formattedTree_listing. reflexivity. Qed.

(** X8. A tree without folders and files lists nothing: when no entry is
    of type [tree] or [blob], and so for the empty tree, the text is the
    heading and the blank line alone. *)
Theorem tree_without_folders_and_files (tree : list TreeItem.t) :
  (forall item, In item tree ->
     TreeItem.type item <> "tree" /\ TreeItem.type item <> "blob") ->
  formattedTree tree = "Repository directory structure:" ++ nl ++ nl.
Proof.
  intros Hother. rewrite formattedTree_groups. unfold folder_lines, file_lines.
  rewrite !filter_none.
  - reflexivity.
  - intros x Hx. unfold is_type. apply String.eqb_neq. apply (Hother x Hx).
  - intros x Hx. unfold is_type. apply String.eqb_neq. apply (Hother x Hx).
Qed.

(** X9. The listing of a tree in two parts: the folders of both parts come
    before the files of both, each group in the order first part, second
    part.  So the text is not the listing of the first part followed by
    that of the second, folders of the second part move in front of the
    files of the first. *)
Theorem tree_listing_of_two_parts (first second : list TreeItem.t) :
  formattedTree (first ++ second)
  = "Repository directory structure:" ++ nl ++ nl
      ++ (folder_lines first ++ folder_lines second)
      ++ (file_lines first ++ file_lines second).
Proof.
  rewrite formattedTree_groups. unfold folder_lines, file_lines.
  now rewrite !filter_app, !map_app, !lines_app.
Qed.

(** X10. Entries that are neither folders nor files leave no mark: the
    listing of a tree is the listing of its folders followed by its
    files, and does not change when the entries of any other type are
    taken out. *)
Theorem tree_listing_ignores_other_entries (tree : list TreeItem.t) :
  formattedTree tree
  = formattedTree (filter (is_type "tree") tree ++ filter (is_type "blob") tree)
  /\ formattedTree tree
     = formattedTree (filter (fun item => is_type "tree" item || is_type "blob" item) tree).
Proof.
  assert (Hdisj : forall t u, t <> u ->
            forall l, filter (is_type t) (filter (is_type u) l) = []).
  { intros t u Htu l. apply filter_none. intros x Hx.
    apply filter_In in Hx as [_ Hx]. unfold is_type in *.
    apply String.eqb_eq in Hx. apply String.eqb_neq. congruence. }
  assert (Hidem : forall t l, filter (is_type t) (filter (is_type t) l) = filter (is_type t) l).
  { intros t l. induction l as [|x l IH]; simpl; [reflexivity|].
    destruct (is_type t x) eqn:E; simpl; [rewrite E, IH|]; auto. }
  assert (Hin : forall t l, (t = "tree" \/ t = "blob") ->
            filter (is_type t) (filter (fun item => is_type "tree" item || is_type "blob" item) l)
            = filter (is_type t) l).
  { intros t l Ht. induction l as [|x l IH]; simpl; [reflexivity|].
    destruct (is_type "tree" x) eqn:E1, (is_type "blob" x) eqn:E2; simpl;
      rewrite ?IH; destruct Ht as [->| ->]; rewrite ?E1, ?E2; reflexivity. }
  split.
  - rewrite !formattedTree_groups. unfold folder_lines, file_lines.
    rewrite !filter_app, !Hidem.
    rewrite (Hdisj "tree" "blob"), (Hdisj "blob" "tree"); try discriminate.
    now rewrite app_nil_r.
  - rewrite !formattedTree_groups. unfold folder_lines, file_lines.
    rewrite !Hin; auto.
Qed.

(** X11. The catalog does not move while the server runs: after any
    history of requests, whatever GitLab answered to them, list-tools
    gives the answer it gave at startup, and sends nothing. *)
Theorem catalog_is_stable (history : list Request) (st : State) :
  completion (list_tools (serve_all schemas gitlab_api history st))
  = completion (list_tools st)
  /\ trace (list_tools (serve_all schemas gitlab_api history st)) = [].
Proof.
  split; [|reflexivity].
  unfold ListTools, ret; cbn [completion].
  now rewrite serve_all_keeps_flag.
Qed.

End Properties.

(** ** Properties of the configuration module *)

(** X12. Loading the configuration goes through exactly when the token is
    set and not empty; otherwise, and so for a token set to the empty
    string, the process exits with code 1 after one line on stderr. *)
Theorem config_needs_a_token (env : Config.Env) :
  ((exists token url, Config.load env = Config.Exports token url)
   <-> (exists token, env "GITLAB_PERSONAL_ACCESS_TOKEN" = Some token /\ token <> EmptyString))
  /\ ((env "GITLAB_PERSONAL_ACCESS_TOKEN" = None
       \/ env "GITLAB_PERSONAL_ACCESS_TOKEN" = Some EmptyString)
      <-> Config.load env
          = Config.Exit 1 ["GITLAB_PERSONAL_ACCESS_TOKEN environment variable is not set"]).
Proof.
  unfold Config.load.
  destruct (env "GITLAB_PERSONAL_ACCESS_TOKEN") as [[|c s]|]; split; split.
  - intros (t & u & H); discriminate H.
  - intros (t & H & Hne). injection H as <-. now elim Hne.
  - reflexivity.
  - auto.
  - intros _. eexists; split; [reflexivity | discriminate].
  - intros _. eexists _, _. reflexivity.
  - intros [H|H]; discriminate H.
  - intros H; discriminate H.
  - intros (t & u & H); discriminate H.
  - intros (t & H & _); discriminate H.
  - reflexivity.
  - auto.
Qed.

(** X13. What the configuration exports is never empty: the token is the
    one of the environment, and the API URL is the one of the environment
    when that is set and not empty, and [https://gitlab.com/api/v4]
    otherwise, so also when [GITLAB_API_URL] is set to the empty
    string. *)
Theorem config_exports_are_not_empty (env : Config.Env) (token url : string) :
  Config.load env = Config.Exports token url ->
  token <> EmptyString
  /\ env "GITLAB_PERSONAL_ACCESS_TOKEN" = Some token
  /\ url <> EmptyString
  /\ ((env "GITLAB_API_URL" = Some url)
      \/ ((env "GITLAB_API_URL" = None \/ env "GITLAB_API_URL" = Some EmptyString)
          /\ url = "https://gitlab.com/api/v4")).
Proof.
  unfold Config.load, Config.or_.
  destruct (env "GITLAB_PERSONAL_ACCESS_TOKEN") as [[|c s]|]; try discriminate.
  intros H. injection H as <- <-.
  split; [discriminate|]. split; [reflexivity|].
  destruct (env "GITLAB_API_URL") as [[|c' s']|]; (split; [discriminate|]); auto.
Qed.

(** ** The handlers on the mock *)

Example stringify_sample :
  JSON_stringify (JObj [("id", JNum 7%Z); ("tags", JArr [JStr "a"; JNull]); ("o", JObj [])])
  = "{" ++ nl ++ "  " ++ dq ++ "id" ++ dq ++ ": 7," ++ nl
        ++ "  " ++ dq ++ "tags" ++ dq ++ ": [" ++ nl
        ++ "    " ++ dq ++ "a" ++ dq ++ "," ++ nl
        ++ "    null" ++ nl
        ++ "  ]," ++ nl
        ++ "  " ++ dq ++ "o" ++ dq ++ ": {}" ++ nl ++ "}".
Proof. reflexivity. Qed.

Example quote_sample :
  quote ("say " ++ dq ++ "hi" ++ dq ++ nl) = dq ++ "say " ++ bs ++ dq ++ "hi" ++ bs ++ dq ++ bs ++ "n" ++ dq.
Proof. reflexivity. Qed.

(** C1, counterexample: [get_repository_tree] with valid arguments.  The
    mock answers with five entries; the caller gets the heading and four
    lines, the folders moved to the front and the submodule entry gone,
    which is not the JSON text of what the API returned. *)
Lemma tree_result_is_reshaped :
  validate Readme.schemas "get_repository_tree" [("project_id", JStr "42")] = Accepted
  /\ trace (Mock.handle false "get_repository_tree" (Some [("project_id", JStr "42")]))
     = [ {| call := GetRepositoryTree "42" None None None None;
            reply := Normal (Mock.tree Mock.gitlab0) |} ]
  /\ completion (Mock.handle false "get_repository_tree" (Some [("project_id", JStr "42")]))
     = Normal (text_result
                 ("Repository directory structure:" ++ nl ++ nl
                    ++ "Folder: src/" ++ nl ++ "Folder: docs/" ++ nl
                    ++ "File: README.md" ++ nl ++ "File: package.json" ++ nl))
  /\ completion (Mock.handle false "get_repository_tree" (Some [("project_id", JStr "42")]))
     <> Normal (text_result
                  (JSON_stringify
                     (api_json (GetRepositoryTree "42" None None None None)
                        (Mock.tree Mock.gitlab0)))).
Proof.
  split; [reflexivity|]. split; [reflexivity|]. split; [reflexivity|].
  vm_compute. discriminate.
Qed.

(** C3, counterexample: [create_branch] with valid arguments and no
    [ref] sends two calls, the lookup of the default branch and the
    creation. *)
Lemma create_branch_sends_two_calls :
  validate Readme.schemas "create_branch"
    [("project_id", JStr "42"); ("branch", JStr "feature")] = Accepted
  /\ calls (Mock.handle false "create_branch"
              (Some [("project_id", JStr "42"); ("branch", JStr "feature")]))
     = [ GetDefaultBranchRef "42";
         CreateBranch "42" {| CreateBranchOptions.name := "feature";
                              CreateBranchOptions.ref := "main" |} ]
  /\ length (trace (Mock.handle false "create_branch"
                      (Some [("project_id", JStr "42"); ("branch", JStr "feature")])))
     <> 1.
Proof.
  split; [reflexivity|]. split; [reflexivity|]. vm_compute. discriminate.
Qed.

(** C4, counterexample: [create_branch] with [ref] given as the empty
    string.  The schema accepts it, yet the default branch is looked up
    and the branch is created from [main], not from the [ref] given. *)
Lemma empty_ref_is_not_used_as_given :
  parse (CreateBranchSchema Readme.schemas)
    [("project_id", JStr "42"); ("branch", JStr "feature"); ("ref", JStr EmptyString)]
  = inl {| CreateBranch.project_id := "42"; CreateBranch.branch := "feature";
           CreateBranch.ref := Some EmptyString |}
  /\ calls (Mock.handle false "create_branch"
              (Some [("project_id", JStr "42"); ("branch", JStr "feature");
                     ("ref", JStr EmptyString)]))
     = [ GetDefaultBranchRef "42";
         CreateBranch "42" {| CreateBranchOptions.name := "feature";
                              CreateBranchOptions.ref := "main" |} ]
  /\ calls (Mock.handle false "create_branch"
              (Some [("project_id", JStr "42"); ("branch", JStr "feature");
                     ("ref", JStr EmptyString)]))
     <> [ CreateBranch "42" {| CreateBranchOptions.name := "feature";
                               CreateBranchOptions.ref := EmptyString |} ].
Proof.
  split; [reflexivity|]. split; [reflexivity|]. vm_compute. discriminate.
Qed.

(** *** The theorems at concrete requests *)

(** C1 on a [create_issue] call: one exchange, and the answer is the JSON
    text of the issue the mock returned. *)
Lemma api_result_is_forwarded_unchanged_witness :
  exists (before : list Exchange) (c : ApiCall) (answer : Completion (ApiReturn c)),
    trace (Mock.handle false "create_issue"
             (Some [("project_id", JStr "42"); ("title", JStr "Crash on start")]))
    = (before ++ [ {| call := c; reply := answer |} ])%list
    /\ match answer with
       | Normal result =>
           completion (Mock.handle false "create_issue"
                         (Some [("project_id", JStr "42"); ("title", JStr "Crash on start")]))
           = Normal {| content := [ {| type := "text";
                                       text := JSON_stringify (api_json c result) |} ] |}
       | Throw _ =>
           exists e,
             completion (Mock.handle false "create_issue"
                           (Some [("project_id", JStr "42"); ("title", JStr "Crash on start")]))
             = Throw e
       end.
Proof.
  apply (@api_result_is_forwarded_unchanged Readme.schemas _ Mock.api
           (Mock.request "create_issue"
              (Some [("project_id", JStr "42"); ("title", JStr "Crash on start")]))
           [("project_id", JStr "42"); ("title", JStr "Crash on start")]
           (Mock.start false)).
  - reflexivity.
  - reflexivity.
  - discriminate.
Defined.

(** C2 on the mock started with [--readonly]: the file is written all the
    same. *)
Lemma readonly_only_restricts_catalog_witness :
  calls (Mock.handle true "create_or_update_file"
           (Some [("project_id", JStr "42"); ("file_path", JStr "a.txt");
                  ("content", JStr "hello"); ("commit_message", JStr "add a");
                  ("branch", JStr "main")]))
  = [ CreateOrUpdateFile "42" "a.txt" "hello" "add a" "main" None ].
Proof.
  apply (proj2 (proj2 (proj2
           (@readonly_only_restricts_catalog Readme.schemas _ Mock.api
              (Mock.request "create_or_update_file"
                 (Some [("project_id", JStr "42"); ("file_path", JStr "a.txt");
                        ("content", JStr "hello"); ("commit_message", JStr "add a");
                        ("branch", JStr "main")]))
              (Mock.start false) true)))
           [("project_id", JStr "42"); ("file_path", JStr "a.txt");
            ("content", JStr "hello"); ("commit_message", JStr "add a");
            ("branch", JStr "main")]
           {| CreateOrUpdateFile.project_id := "42";
              CreateOrUpdateFile.file_path := "a.txt";
              CreateOrUpdateFile.content := "hello";
              CreateOrUpdateFile.commit_message := "add a";
              CreateOrUpdateFile.branch := "main";
              CreateOrUpdateFile.previous_path := None |});
    reflexivity.
Defined.

(** C3 on a [fork_repository] call: one call out. *)
Lemma one_api_call_per_request_witness :
  length (trace (Mock.handle false "fork_repository" (Some [("project_id", JStr "42")]))) = 1.
Proof.
  apply (proj2
           (@one_api_call_per_request Readme.schemas _ Mock.api
              (Mock.request "fork_repository" (Some [("project_id", JStr "42")]))
              [("project_id", JStr "42")] (Mock.start false) eq_refl eq_refl)).
Defined.

(** C4 on a [create_branch] call with a [ref]: the branch is created from
    it and the default branch is not asked for. *)
Lemma create_branch_source_ref_witness :
  calls (Mock.handle false "create_branch"
           (Some [("project_id", JStr "42"); ("branch", JStr "feature");
                  ("ref", JStr "develop")]))
  = [ CreateBranch "42" {| CreateBranchOptions.name := "feature";
                           CreateBranchOptions.ref := "develop" |} ].
Proof.
  apply (@create_branch_source_ref Readme.schemas _ Mock.api
           (Mock.request "create_branch"
              (Some [("project_id", JStr "42"); ("branch", JStr "feature");
                     ("ref", JStr "develop")]))
           [("project_id", JStr "42"); ("branch", JStr "feature"); ("ref", JStr "develop")]
           {| CreateBranch.project_id := "42"; CreateBranch.branch := "feature";
              CreateBranch.ref := Some "develop" |}
           (Mock.start false));
    reflexivity.
Defined.

(** C5 on a [push_files] call with a number for a path, no content and no
    commit message. *)
Lemma invalid_arguments_name_each_field_witness :
  completion (Mock.handle false "push_files"
                (Some [("project_id", JStr "42"); ("branch", JStr "main");
                       ("files", JArr [JObj [("file_path", JNum 1%Z)]])]))
  = Throw (Error ("Invalid arguments: files.0.file_path: Expected string, received number, "
                    ++ "files.0.content: Required, commit_message: Required")).
Proof.
  apply (@invalid_arguments_name_each_field Readme.schemas _ Mock.api
           (Mock.request "push_files"
              (Some [("project_id", JStr "42"); ("branch", JStr "main");
                     ("files", JArr [JObj [("file_path", JNum 1%Z)]])]))
           [("project_id", JStr "42"); ("branch", JStr "main");
            ("files", JArr [JObj [("file_path", JNum 1%Z)]])]
           [ {| path := [Key "files"; Index 0%N; Key "file_path"];
                message := "Expected string, received number" |};
             {| path := [Key "files"; Index 0%N; Key "content"]; message := "Required" |};
             {| path := [Key "commit_message"]; message := "Required" |} ]
           (Mock.start false));
    reflexivity.
Defined.

(** C6 on a fork of a project GitLab does not know: the adapter's error
    is what the caller gets. *)
Lemma other_failures_are_rethrown_witness :
  completion (Mock.handle false "fork_repository" (Some [("project_id", JStr "missing")]))
  = Throw (Error "GitLab API error: Not Found")
  /\ trace (Mock.handle false "fork_repository" (Some [("project_id", JStr "missing")]))
     = [ {| call := ForkProject "missing" None;
            reply := Throw (Error "GitLab API error: Not Found") |} ].
Proof.
  apply (proj1
           (@other_failures_are_rethrown Readme.schemas _ Mock.api
              (Mock.request "fork_repository" (Some [("project_id", JStr "missing")]))
              (Mock.start false))
           (Error "GitLab API error: Not Found")).
  - reflexivity.
  - discriminate.
Defined.

(** C7 on a [create_issue] call whose [project_id] is a number. *)
Lemma rejected_arguments_reach_no_api_witness :
  trace (Mock.handle false "create_issue"
           (Some [("project_id", JNum 42%Z); ("title", JStr "Crash on start")])) = []
  /\ state (Mock.handle false "create_issue"
              (Some [("project_id", JNum 42%Z); ("title", JStr "Crash on start")]))
     = Mock.start false.
Proof.
  apply (@rejected_arguments_reach_no_api Readme.schemas _ Mock.api
           (Mock.request "create_issue"
              (Some [("project_id", JNum 42%Z); ("title", JStr "Crash on start")]))
           [("project_id", JNum 42%Z); ("title", JStr "Crash on start")]
           [ {| path := [Key "project_id"];
                message := "Expected string, received number" |} ]
           (Mock.start false));
    reflexivity.
Defined.

(** C8 on the mock's tree. *)
Lemma tree_listing_folders_then_files_witness :
  completion (Mock.handle false "get_repository_tree"
                (Some [("project_id", JStr "42"); ("recursive", JBool true)]))
  = Normal
      {| content :=
           [ {| type := "text";
                text := "Repository directory structure:" ++ nl ++ nl
                          ++ "Folder: src/" ++ nl ++ "Folder: docs/" ++ nl
                          ++ "File: README.md" ++ nl ++ "File: package.json" ++ nl |} ] |}.
Proof.
  apply (@tree_listing_folders_then_files Readme.schemas _ Mock.api
           (Mock.request "get_repository_tree"
              (Some [("project_id", JStr "42"); ("recursive", JBool true)]))
           [("project_id", JStr "42"); ("recursive", JBool true)]
           {| GetRepositoryTree.project_id := "42"; GetRepositoryTree.path := None;
              GetRepositoryTree.ref := None; GetRepositoryTree.recursive := Some true;
              GetRepositoryTree.per_page := None |}
           (Mock.tree Mock.gitlab0) Mock.gitlab0 (Mock.start false));
    reflexivity.
Defined.

(** C9 on two requests for a tool that does not exist, without and with
    arguments. *)
Lemma missing_arguments_and_unknown_tools_witness :
  Mock.handle false "delete_repository" None
  = {| completion := Throw (Error "Arguments are required");
       state := Mock.start false; trace := [] |}
  /\ Mock.handle false "delete_repository" (Some [("project_id", JStr "42")])
     = {| completion := Throw (Error "Unknown tool: delete_repository");
          state := Mock.start false; trace := [] |}.
Proof.
  split.
  - apply (proj1
             (@missing_arguments_and_unknown_tools Readme.schemas _ Mock.api
                (Mock.request "delete_repository" None) (Mock.start false))).
    reflexivity.
  - apply (proj2
             (@missing_arguments_and_unknown_tools Readme.schemas _ Mock.api
                (Mock.request "delete_repository" (Some [("project_id", JStr "42")]))
                (Mock.start false))
             [("project_id", JStr "42")] eq_refl).
    unfold tool_names; simpl; intros H.
    repeat (destruct H as [H|H]; [discriminate H|]). exact H.
Defined.

(** C10 on two histories that leave GitLab alone: a listing, and a
    rejected call followed by a search. *)
Lemma server_state_is_never_mutated_witness :
  serve Readme.schemas Mock.api
    (CallToolRequest_ (Mock.request "fork_repository" (Some [("project_id", JStr "42")])))
    (serve_all Readme.schemas Mock.api [ListToolsRequest] (Mock.start true))
  = serve Readme.schemas Mock.api
      (CallToolRequest_ (Mock.request "fork_repository" (Some [("project_id", JStr "42")])))
      (serve_all Readme.schemas Mock.api
         [ CallToolRequest_ (Mock.request "create_issue" None);
           CallToolRequest_ (Mock.request "search_repositories" (Some [("search", JStr "mcp")])) ]
         (Mock.start true)).
Proof.
  apply (proj2 (proj2 (proj2
           (@server_state_is_never_mutated Readme.schemas _ Mock.api
              [ListToolsRequest]
              [ CallToolRequest_ (Mock.request "create_issue" None);
                CallToolRequest_
                  (Mock.request "search_repositories" (Some [("search", JStr "mcp")])) ]
              (CallToolRequest_
                 (Mock.request "fork_repository" (Some [("project_id", JStr "42")])))
              (Mock.start true))))).
  reflexivity.
Defined.

(** *** The further properties at concrete requests *)

(** X3 on a fork whose answer the adapter's own check rejects. *)
Lemma adapter_ZodError_reads_as_invalid_arguments_witness :
  completion (CallTool Readme.schemas Malformed.api
                (Mock.request "fork_repository" (Some [("project_id", JStr "42")]))
                (Mock.start false))
  = Throw (Error "Invalid arguments: forked_from_project.id: Required").
Proof.
  apply (proj1
           (@adapter_ZodError_reads_as_invalid_arguments Readme.schemas _ Malformed.api
              (Mock.request "fork_repository" (Some [("project_id", JStr "42")]))
              (Mock.start false) [] []
              {| call := ForkProject "42" None; reply := Throw (ZodError Malformed.issues) |}
              Malformed.issues eq_refl eq_refl)).
Defined.

(** X4 on a search. *)
Lemma readonly_tools_only_fetch_witness :
  forallb fetches
    (calls (Mock.handle true "search_repositories" (Some [("search", JStr "mcp")]))) = true
  /\ length (calls (Mock.handle true "search_repositories" (Some [("search", JStr "mcp")])))
     <= 1.
Proof.
  apply (@readonly_tools_only_fetch Readme.schemas _ Mock.api
           (Mock.request "search_repositories" (Some [("search", JStr "mcp")]))
           (Mock.start true)).
  simpl. tauto.
Defined.

(** X5 on a tool the catalog does not have. *)
Lemma unknown_iff_not_in_catalog_witness :
  completion (Mock.handle false "delete_branch" (Some [("project_id", JStr "42")]))
  = Throw (Error "Unknown tool: delete_branch")
  /\ trace (Mock.handle false "delete_branch" (Some [("project_id", JStr "42")])) = [].
Proof.
  apply (proj2
           (@unknown_iff_not_in_catalog Readme.schemas _ Mock.api
              (Mock.request "delete_branch" (Some [("project_id", JStr "42")]))
              [("project_id", JStr "42")] (Mock.start false) eq_refl)).
  simpl. intros H.
  repeat (destruct H as [H|H]; [discriminate H|]). exact H.
Defined.

(** X7 on a push of two files. *)
Lemma push_files_commits_every_file_witness :
  exists actions,
    calls (Mock.handle false "push_files"
             (Some [("project_id", JStr "42"); ("branch", JStr "main");
                    ("files", JArr [JObj [("file_path", JStr "a.txt"); ("content", JStr "A")];
                                    JObj [("file_path", JStr "b.txt"); ("content", JStr "B")]]);
                    ("commit_message", JStr "two files")]))
    = [ CreateCommit "42" "two files" "main" actions ]
    /\ map FileOperation.path actions = ["a.txt"; "b.txt"]
    /\ map FileOperation.content actions = ["A"; "B"]
    /\ length actions = 2.
Proof.
  apply (@push_files_commits_every_file Readme.schemas _ Mock.api
           (Mock.request "push_files"
              (Some [("project_id", JStr "42"); ("branch", JStr "main");
                     ("files", JArr [JObj [("file_path", JStr "a.txt"); ("content", JStr "A")];
                                     JObj [("file_path", JStr "b.txt"); ("content", JStr "B")]]);
                     ("commit_message", JStr "two files")]))
           [("project_id", JStr "42"); ("branch", JStr "main");
            ("files", JArr [JObj [("file_path", JStr "a.txt"); ("content", JStr "A")];
                            JObj [("file_path", JStr "b.txt"); ("content", JStr "B")]]);
            ("commit_message", JStr "two files")]
           {| PushFiles.project_id := "42"; PushFiles.branch := "main";
              PushFiles.files :=
                [ {| PushFiles.file_path := "a.txt"; PushFiles.content := "A" |};
                  {| PushFiles.file_path := "b.txt"; PushFiles.content := "B" |} ];
              PushFiles.commit_message := "two files" |}
           (Mock.start false));
    reflexivity.
Defined.

(** X8 on a tree of two submodules. *)
Lemma tree_without_folders_and_files_witness :
  formattedTree [Mock.entry "commit" "vendor/lib"; Mock.entry "commit" "vendor/ui"]
  = "Repository directory structure:" ++ nl ++ nl.
Proof.
  apply (tree_without_folders_and_files
           [Mock.entry "commit" "vendor/lib"; Mock.entry "commit" "vendor/ui"]).
  intros item [<-|[<-|[]]]; split; discriminate.
Defined.

(** X13 on an environment with a token and an empty URL. *)
Lemma config_exports_are_not_empty_witness :
  "glpat-0123" <> EmptyString
  /\ Config.env_of [("GITLAB_PERSONAL_ACCESS_TOKEN", "glpat-0123");
                    ("GITLAB_API_URL", EmptyString)]
       "GITLAB_PERSONAL_ACCESS_TOKEN" = Some "glpat-0123"
  /\ "https://gitlab.com/api/v4" <> EmptyString
  /\ ((Config.env_of [("GITLAB_PERSONAL_ACCESS_TOKEN", "glpat-0123");
                      ("GITLAB_API_URL", EmptyString)]
         "GITLAB_API_URL" = Some "https://gitlab.com/api/v4")
      \/ ((Config.env_of [("GITLAB_PERSONAL_ACCESS_TOKEN", "glpat-0123");
                          ("GITLAB_API_URL", EmptyString)]
             "GITLAB_API_URL" = None
           \/ Config.env_of [("GITLAB_PERSONAL_ACCESS_TOKEN", "glpat-0123");
                             ("GITLAB_API_URL", EmptyString)]
                "GITLAB_API_URL" = Some EmptyString)
          /\ "https://gitlab.com/api/v4" = "https://gitlab.com/api/v4")).
Proof.
  apply (@config_exports_are_not_empty
           (Config.env_of [("GITLAB_PERSONAL_ACCESS_TOKEN", "glpat-0123");
                           ("GITLAB_API_URL", EmptyString)])
           "glpat-0123" "https://gitlab.com/api/v4").
  reflexivity.
Defined.
